(** * geomdl.exchange.obj: import and export of Wavefront OBJ text

    A shallow embedding of [src/geomdl/exchange/obj.py] and the properties
    of its parser ([import_obj]) and serializer ([export_obj_str]).

    Python values are modelled as follows.
    - [int] is [Z]; [str] is [string] (8-bit characters: text outside ASCII
      is not modelled); a [list] is a [list].
    - A [float] is an abstract type: the development is parametric in the
      carrier and in the two conversions the module uses, [float(s)] and
      [str(x)].
    - A raised exception is the left injection of [result]; the loops stop
      at the first exception, as the interpreter does. *)

From Stdlib Require Import String Ascii List ZArith Lia Bool.
From Stdlib Require Import DecimalString.
From Stdlib Require Decimal DecimalPos DecimalZ.
Import ListNotations.

#[local] Open Scope string_scope.
#[local] Open Scope Z_scope.

(** ** Exceptions and the error monad *)

Inductive exn : Type :=
| IndexError
| ValueError
| TypeError
| GeomdlError (msg : string).

Definition result (A : Type) : Type := (exn + A)%type.

Definition ret {A} (a : A) : result A := inr a.
Definition raise {A} (e : exn) : result A := inl e.
Definition bind {A B} (c : result A) (k : A -> result B) : result B :=
  match c with
  | inl e => inl e
  | inr a => k a
  end.

Notation "x <- c ;; k" := (bind c (fun x => k))
  (at level 61, c at next level, right associativity).

(** [[f(x) for x in l]]: elements are evaluated left to right and the first
    exception ends the comprehension. *)
Fixpoint comprehension {A B} (f : A -> result B) (l : list A) : result (list B) :=
  match l with
  | [] => ret []
  | a :: l' => b <- f a ;; bs <- comprehension f l' ;; ret (b :: bs)
  end.

(** [[for x in l: s = body(s, x)]] with an exception ending the loop. *)
Fixpoint for_each {S A} (body : S -> A -> result S) (l : list A) (s : S) : result S :=
  match l with
  | [] => ret s
  | a :: l' => s' <- body s a ;; for_each body l' s'
  end.

(** ** The Python built-ins the module relies on *)

Module Py.

(** [c.isspace()] on the ASCII range: TAB, LF, VT, FF, CR, the four
    separators FS..US and the space. *)
Definition isspace (c : ascii) : bool :=
  let n := N_of_ascii c in
  ((9 <=? n) && (n <=? 13) || (28 <=? n) && (n <=? 32))%N.

Fixpoint lstrip (s : string) : string :=
  match s with
  | String c s' => if isspace c then lstrip s' else s
  | EmptyString => EmptyString
  end.

Fixpoint rstrip (s : string) : string :=
  match s with
  | String c s' =>
      match rstrip s' with
      | EmptyString => if isspace c then EmptyString else String c EmptyString
      | r => String c r
      end
  | EmptyString => EmptyString
  end.

(** [s.strip()] *)
Definition strip (s : string) : string := rstrip (lstrip s).

(** [s.split(sep)] for a one-character separator: every occurrence of
    [sep] ends a field, so the result is never empty and two adjacent
    separators enclose an empty field. *)
Fixpoint split (sep : ascii) (s : string) : list string :=
  match s with
  | EmptyString => [EmptyString]
  | String c s' =>
      if Ascii.eqb c sep then EmptyString :: split sep s'
      else match split sep s' with
           | h :: t => String c h :: t
           | [] => [String c EmptyString]
           end
  end.

Definition digit (c : ascii) : option Z :=
  let n := N_of_ascii c in
  if ((48 <=? n) && (n <=? 57))%N then Some (Z.of_N n - 48) else None.

(** The digit part of an integer literal: decimal digits, with single
    underscores allowed between two digits. [seen] tells whether the
    previous character was a digit. *)
Fixpoint digitpart (s : string) (acc : Z) (seen : bool) : option Z :=
  match s with
  | EmptyString => if seen then Some acc else None
  | String c s' =>
      match digit c with
      | Some d => digitpart s' (10 * acc + d) true
      | None =>
          if Ascii.eqb c "_" then
            if seen then digitpart s' acc false else None
          else None
      end
  end.

(** [int(s)] for a string in base 10: surrounding whitespace is dropped,
    one sign is allowed; anything else raises [ValueError]. *)
Definition int (s : string) : result Z :=
  let body := strip s in
  let parsed :=
    match body with
    | String "+" r => digitpart r 0 false
    | String "-" r => option_map Z.opp (digitpart r 0 false)
    | _ => digitpart body 0 false
    end in
  match parsed with
  | Some z => ret z
  | None => raise ValueError
  end.

(** [l[i]]: an index in [0, len) counts from the front, an index in
    [-len, 0) counts from the back, any other raises [IndexError]. *)
Definition getitem {A} (l : list A) (i : Z) : result A :=
  let len := Z.of_nat (length l) in
  let pos := if i <? 0 then i + len else i in
  if (0 <=? pos) && (pos <? len) then
    match nth_error l (Z.to_nat pos) with
    | Some a => ret a
    | None => raise IndexError
    end
  else raise IndexError.

(** [str(n)] for an [int]. *)
Definition str (n : Z) : string := NilZero.string_of_int (Z.to_int n).

(** [len(l)] *)
Definition len {A} (l : list A) : Z := Z.of_nat (length l).

End Py.

(** ** Floats *)

(** The carrier of Python's [float], with [float(s)] (which raises
    [ValueError] on a string that is no number) and [str(x)]. *)
Class PyFloat : Type := {
  float : Type;
  float_of_str : string -> option float;
  str_of_float : float -> string
}.

Definition nl : string := String "010" EmptyString.

(** ** Entities and the parser *)

Section Parser.

Context {PF : PyFloat}.

Definition py_float (s : string) : result float :=
  match float_of_str s with
  | Some x => ret x
  | None => raise ValueError
  end.

(** Modelled from the spec: module [entity] (imported by [obj.py], absent
    from the sources). A Vertex has an identifier and a 3D position; a
    Triangle has an identifier and an ordered sequence of Vertex values;
    a Face has an identifier and an ordered sequence of Triangle values.
    The arguments are kept in the order given. *)
Record Vertex : Type := mkVertex {
  vertex_id : Z;
  vertex_data : float * float * float
}.

Record Triangle : Type := mkTriangle {
  triangle_id : Z;
  triangle_vertices : list Vertex
}.

Record Face : Type := mkFace {
  face_id : Z;
  face_triangles : list Triangle
}.

(** Modelled from the spec: the constructor [entity.Vertex] on the tokens
    of a [v] line, which parses its arguments as three coordinates; a
    different number of arguments is an error. *)
Definition Vertex_new (args : list string) (id : Z) : result Vertex :=
  match args with
  | [a; b; c] =>
      x <- py_float a ;;
      y <- py_float b ;;
      z <- py_float c ;;
      ret (mkVertex id (x, y, z))
  | _ => raise TypeError
  end.

(** Modelled from the spec: the constructors [entity.Triangle] and
    [entity.Face] store their positional arguments; the parser hands
    a Triangle as many vertices as the [f] line has index tokens. *)
Definition Triangle_new (args : list Vertex) (id : Z) : Triangle := mkTriangle id args.
Definition Face_new (args : list Triangle) (id : Z) : Face := mkFace id args.

(** The local variables of [import_obj] that the loop reads and writes. *)
Record import_state : Type := mkState {
  on_face : bool;
  vertices : list Vertex;
  triangles : list Triangle;
  faces : list Face;
  vert_idx : Z;
  tri_idx : Z;
  face_idx : Z
}.

Definition initial_state : import_state :=
  mkState false [] [] [] 1 1 1.

(** [carr = carr.strip(); data = carr.split(" "); data = [d.strip() for d in data]] *)
Definition tokenize (carr : string) : list string :=
  map Py.strip (Py.split " " (Py.strip carr)).

(** The block run by a [v] line when [on_face] is set (lines 67-74). *)
Definition close_face (st : import_state) : import_state :=
  mkState false [] []
          (faces st ++ [Face_new (triangles st) (face_idx st)])
          1 1 (face_idx st + 1).

(** [if data[0] == "v": ...] (lines 65-77) *)
Definition vertex_line (st : import_state) (data : list string) : result import_state :=
  let st := if on_face st then close_face st else st in
  vertex <- Vertex_new (tl data) (vert_idx st) ;;
  ret (mkState (on_face st) (vertices st ++ [vertex]) (triangles st) (faces st)
               (vert_idx st + 1) (tri_idx st) (face_idx st)).

(** [vertices[int(fidx) - 1]] *)
Definition resolve (vs : list Vertex) (fidx : string) : result Vertex :=
  i <- Py.int fidx ;;
  Py.getitem vs (i - 1).

(** [if data[0] == "f": ...] (lines 78-82) *)
Definition face_line (st : import_state) (data : list string) : result import_state :=
  refs <- comprehension (resolve (vertices st)) (tl data) ;;
  let triangle := Triangle_new refs (tri_idx st) in
  ret (mkState true (vertices st) (triangles st ++ [triangle]) (faces st)
               (vert_idx st) (tri_idx st + 1) (face_idx st)).

(** The body of the loop over [content_arr] (lines 62-82). [data] is never
    empty, so [data[0]] is its head. *)
Definition process_line (st : import_state) (carr : string) : result import_state :=
  let data := tokenize carr in
  let head := hd EmptyString data in
  st <- (if String.eqb head "v" then vertex_line st data else ret st) ;;
  if String.eqb head "f" then face_line st data else ret st.

(** Lines 84-87: the pending triangles become the last Face. *)
Definition final_faces (st : import_state) : list Face :=
  match triangles st with
  | [] => faces st
  | _ :: _ => faces st ++ [Face_new (triangles st) (face_idx st)]
  end.

(** The loop over the lines, from the initial values of the variables. *)
Definition import_lines (content_arr : list string) : result import_state :=
  for_each process_line content_arr initial_state.

(** [import_obj] on the text [content] that [exc_helpers.read_file]
    returned, with the function given as [callback]. *)
Definition import_obj_with {R} (callback_func : list Face -> R) (content : string)
  : result R :=
  st <- import_lines (Py.split "010" content) ;;
  ret (callback_func (final_faces st)).

Definition default_callback (face_list : list Face) : list Face := face_list.

(** [import_obj] with no [callback] keyword. *)
Definition import_obj (content : string) : result (list Face) :=
  import_obj_with default_callback content.


(** *** Vocabulary of the statements about the parser *)

(** What the loop body does with a line is decided by [data[0]]. *)
Inductive line_kind : Type := VertexLine | FaceLine | OtherLine.

Definition kind_of (carr : string) : line_kind :=
  let head := hd EmptyString (tokenize carr) in
  if String.eqb head "v" then VertexLine
  else if String.eqb head "f" then FaceLine
  else OtherLine.

Definition recognized (carr : string) : bool :=
  match kind_of carr with OtherLine => false | _ => true end.

(** [data[1:]] of a line. *)
Definition index_tokens (carr : string) : list string := tl (tokenize carr).

(** [content.split("\n")], and the lines of it the loop acts upon. *)
Definition lines_of (content : string) : list string := Py.split "010" content.
Definition recognized_lines (content : string) : list string :=
  filter recognized (lines_of content).

(** The identifiers [first], [first + 1], ... ([count] of them). *)
Fixpoint ids_from (first : Z) (count : nat) : list Z :=
  match count with
  | O => []
  | S n => first :: ids_from (first + 1) n
  end.

(** A state as it would be had the loop started with the Faces [done]
    already appended and the face counter advanced by [k]. *)
Definition bump (k : Z) (f : Face) : Face := mkFace (face_id f + k) (face_triangles f).

Definition shift (done : list Face) (k : Z) (st : import_state) : import_state :=
  mkState (on_face st) (vertices st) (triangles st)
          (done ++ map (bump k) (faces st))
          (vert_idx st) (tri_idx st) (face_idx st + k).

(** The invariant of the loop: the flag tells whether triangles are
    pending, the counters are one more than the sizes of the buffers, the
    buffers are numbered from 1 and the pending triangles refer to the
    current vertex buffer. *)
Definition numbered (vs : list Vertex) : Prop :=
  map vertex_id vs = ids_from 1 (length vs).

Definition well_formed (st : import_state) : Prop :=
  (on_face st = false -> triangles st = []) /\
  (on_face st = true -> triangles st <> []) /\
  vert_idx st = Py.len (vertices st) + 1 /\
  tri_idx st = Py.len (triangles st) + 1 /\
  numbered (vertices st) /\
  map triangle_id (triangles st) = ids_from 1 (length (triangles st)) /\
  Forall (fun t => Forall (fun v => In v (vertices st)) (triangle_vertices t))
         (triangles st).

(** The numbering of a Face built from [vcount] vertices and [tcount]
    face lines starts at 1: its triangles are numbered 1..[tcount] and
    refer to vertices numbered within 1..[vcount]. *)
Definition local_numbering (vcount tcount : nat) (f : Face) : Prop :=
  map triangle_id (face_triangles f) = ids_from 1 tcount /\
  Forall (fun t => Forall (fun v => 1 <= vertex_id v <= Z.of_nat vcount)
                          (triangle_vertices t))
         (face_triangles f).

End Parser.

(** ** The serializer *)

Section Serializer.

Context {PF : PyFloat}.

(** Modelled from the spec: the mesh returned by the tessellator (module
    [tessellate], absent from the sources): ordered vertices with a
    position and a parametric coordinate, and ordered triangles whose
    [data] is a triple of 0-based indices into the vertices. *)
Record MeshVertex : Type := mkMeshVertex {
  x : float;
  y : float;
  z : float;
  uv : float * float
}.

Record MeshTriangle : Type := mkMeshTriangle {
  data : Z * Z * Z
}.

Definition Mesh : Type := (list MeshVertex * list MeshTriangle)%type.

(** Modelled from the spec: what the serializer uses of a surface and of
    its collaborators (modules [tessellate] and [exc_helpers], absent from
    the sources). A surface gives [srf.evalpts], [srf.sample_size.u] and
    [srf.sample_size.v]; [tessellate(evaluated_points, u_count, v_count,
    spacing)] returns a mesh, its spacing being [None] when the caller
    gives none; [surface_normal(surface, uv, normalize)] returns a
    position and a normal vector. Either collaborator may raise. *)
Class Collaborators : Type := {
  EvalPts : Type;
  Surface : Type;
  evalpts : Surface -> EvalPts;
  sample_size_u : Surface -> Z;
  sample_size_v : Surface -> Z;
  make_triangle_mesh : EvalPts -> Z -> Z -> option Z -> result Mesh;
  surface_normal :
    Surface -> float * float -> bool ->
    result ((float * float * float) * (float * float * float))
}.

Context {CO : Collaborators}.

(** The argument [surface] of the export: its [pdimension] and the
    surfaces that iterating over it yields. *)
Record Geometry : Type := mkGeometry {
  pdimension : Z;
  iter : list Surface
}.

(** The keyword arguments of the export; [None] is an absent keyword.
    [vertex_spacing] is the integer that [int(...)] makes of the option. *)
Record export_kwargs : Type := mkKwargs {
  kw_vertex_spacing : option Z;
  kw_vertex_normals : option bool;
  kw_parametric_vertices : option bool
}.

(** [kwargs.get(key, default)] *)
Definition kwargs_get {A} (value : option A) (default : A) : A :=
  match value with
  | Some a => a
  | None => default
  end.

(** Line 135 *)
Definition v_line (vert : MeshVertex) : string :=
  "v " ++ str_of_float (x vert) ++ " " ++ str_of_float (y vert) ++ " "
       ++ str_of_float (z vert) ++ nl.

(** Line 141 *)
Definition vp_line (vert : MeshVertex) : string :=
  "vp " ++ str_of_float (fst (uv vert)) ++ " " ++ str_of_float (snd (uv vert)) ++ nl.

(** Lines 147-148 *)
Definition vn_line (srf : Surface) (vert : MeshVertex) : result string :=
  sn <- surface_normal srf (uv vert) true ;;
  let '(n0, n1, n2) := snd sn in
  ret ("vn " ++ str_of_float n0 ++ " " ++ str_of_float n1 ++ " "
             ++ str_of_float n2 ++ nl).

(** Lines 153-157 *)
Definition f_line (vertex_offset : Z) (t : MeshTriangle) : string :=
  let '(vl0, vl1, vl2) := data t in
  "f " ++ Py.str (vl0 + 1 + vertex_offset) ++ " "
       ++ Py.str (vl1 + 1 + vertex_offset) ++ " "
       ++ Py.str (vl2 + 1 + vertex_offset) ++ nl.

(** The variables the loop over the surfaces reads and writes. *)
Record export_state : Type := mkExport {
  str_v : list string;
  str_vn : list string;
  str_vp : list string;
  str_f : list string;
  vertex_offset : Z
}.

Definition export_initial : export_state := mkExport [] [] [] [] 0.

(** The body of the loop over the surfaces (lines 130-161). *)
Definition export_surface (include_vertex_normal include_param_vertex : bool)
           (st : export_state) (srf : Surface) : result export_state :=
  mesh <- make_triangle_mesh (evalpts srf) (sample_size_u srf) (sample_size_v srf) None ;;
  let '(mesh_vertices, mesh_triangles) := mesh in
  let new_v := (str_v st ++ map v_line mesh_vertices)%list in
  let new_vp :=
    if include_param_vertex then (str_vp st ++ map vp_line mesh_vertices)%list
    else str_vp st in
  new_vn <- (if include_vertex_normal then
               lines <- comprehension (vn_line srf) mesh_vertices ;;
               ret (str_vn st ++ lines)%list
             else ret (str_vn st)) ;;
  let new_f := (str_f st ++ map (f_line (vertex_offset st)) mesh_triangles)%list in
  ret (mkExport new_v new_vn new_vp new_f (Py.len new_v)).

(** [for l in block: line += l] *)
Definition append_all (line : string) (block : list string) : string :=
  fold_left String.append block line.

(** Lines 163-173 *)
Definition assemble (st : export_state) : string :=
  let line := "# Generated by geomdl" ++ nl in
  let line := append_all line (str_v st) in
  let line := append_all line (str_vn st) in
  let line := append_all line (str_vp st) in
  append_all line (str_f st).

Definition export_obj_str (surface : Geometry) (kwargs : export_kwargs) : result string :=
  let vertex_spacing := kwargs_get (kw_vertex_spacing kwargs) 1 in
  let include_vertex_normal := kwargs_get (kw_vertex_normals kwargs) false in
  let include_param_vertex := kwargs_get (kw_parametric_vertices kwargs) false in
  if negb (pdimension surface =? 2) then
    raise (GeomdlError "Can only export surfaces")
  else if vertex_spacing <? 1 then
    raise (GeomdlError "Vertex spacing should be bigger than zero")
  else
    st <- for_each (export_surface include_vertex_normal include_param_vertex)
                   (iter surface) export_initial ;;
    ret (assemble st).

(** *** Vocabulary of the statements about the serializer *)

(** The same call with another value for [vertex_spacing]. *)
Definition with_vertex_spacing (kwargs : export_kwargs) (spacing : Z) : export_kwargs :=
  mkKwargs (Some spacing) (kw_vertex_normals kwargs) (kw_parametric_vertices kwargs).

(** What one surface contributes: its mesh and its [vn] lines. *)
Definition piece : Type := (Mesh * list string)%type.
Definition piece_vertices (p : piece) : list MeshVertex := fst (fst p).
Definition piece_triangles (p : piece) : list MeshTriangle := snd (fst p).
Definition piece_normals (p : piece) : list string := snd p.

(** The collaborators answer for [srf] with the piece [p]. *)
Definition tessellated (normals : bool) (srf : Surface) (p : piece) : Prop :=
  make_triangle_mesh (evalpts srf) (sample_size_u srf) (sample_size_v srf) None
  = inr (fst p) /\
  if normals then comprehension (vn_line srf) (piece_vertices p) = inr (piece_normals p)
  else piece_normals p = [].

(** The four blocks of lines, each over all the surfaces. *)
Definition v_block (ps : list piece) : list string :=
  flat_map (fun p => map v_line (piece_vertices p)) ps.

Definition vn_block (ps : list piece) : list string :=
  flat_map piece_normals ps.

Definition vp_block (parametric : bool) (ps : list piece) : list string :=
  if parametric then flat_map (fun p => map vp_line (piece_vertices p)) ps else [].

(** The vertices emitted by all the surfaces. *)
Definition total_vertices (ps : list piece) : Z :=
  fold_right (fun p n => Py.len (piece_vertices p) + n) 0 ps.

(** The index triple of a face line: the triangle's 0-based local indices
    moved to the 1-based numbering that starts after [offset] vertices. *)
Definition global_face (offset : Z) (t : MeshTriangle) : Z * Z * Z :=
  let '(i, j, k) := data t in (i + 1 + offset, j + 1 + offset, k + 1 + offset).

(** The index triples of all face lines, the offset being the running
    total of the vertices of the surfaces before. *)
Fixpoint face_triples (offset : Z) (ps : list piece) : list (Z * Z * Z) :=
  match ps with
  | [] => []
  | p :: ps' =>
      (map (global_face offset) (piece_triangles p)
       ++ face_triples (offset + Py.len (piece_vertices p)) ps')%list
  end.

Definition render_face (idx : Z * Z * Z) : string :=
  let '(a, b, c) := idx in
  "f " ++ Py.str a ++ " " ++ Py.str b ++ " " ++ Py.str c ++ nl.

Definition indices_of (idx : Z * Z * Z) : list Z :=
  let '(a, b, c) := idx in [a; b; c].

Definition max_index (l : list Z) : Z := fold_right Z.max 0 l.

(** A mesh whose triangles refer to its own vertices, and one whose last
    vertex is a corner of some triangle. *)
Definition mesh_in_range (m : Mesh) : Prop :=
  let n := Py.len (fst m) in
  Forall (fun t => let '(i, j, k) := data t in
                   0 <= i < n /\ 0 <= j < n /\ 0 <= k < n) (snd m).

Definition last_vertex_used (m : Mesh) : Prop :=
  let n := Py.len (fst m) in
  Exists (fun t => let '(i, j, k) := data t in
                   i = n - 1 \/ j = n - 1 \/ k = n - 1) (snd m).

(** The text of a block: its lines one after the other. *)
Definition join (block : list string) : string := fold_right String.append EmptyString block.

Definition header : string := "# Generated by geomdl" ++ nl.

End Serializer.

(** ** A sample instance

    Floats restricted to integer literals, and collaborators that answer
    with a flat quad of four vertices and two triangles, or with a single
    triangle when asked for a spacing above 1. *)

Module Sample.

Definition int_literal (s : string) : option Z :=
  match Py.int s with
  | inr n => Some n
  | inl _ => None
  end.

Definition floats : PyFloat :=
  {| float := Z; float_of_str := int_literal; str_of_float := Py.str |}.

Definition tab : string := String "009" EmptyString.

Definition quad : Mesh (PF := floats) :=
  ([mkMeshVertex (PF := floats) 0 0 0 (0, 0); mkMeshVertex (PF := floats) 1 0 0 (1, 0);
    mkMeshVertex (PF := floats) 0 1 0 (0, 1); mkMeshVertex (PF := floats) 1 1 0 (1, 1)],
   [mkMeshTriangle (0, 1, 2); mkMeshTriangle (1, 3, 2)]).

Definition coarse : Mesh (PF := floats) :=
  ([mkMeshVertex (PF := floats) 0 0 0 (0, 0); mkMeshVertex (PF := floats) 1 0 0 (1, 0);
    mkMeshVertex (PF := floats) 0 1 0 (0, 1)],
   [mkMeshTriangle (0, 1, 2)]).

Definition tessellate (_ : unit) (_ _ : Z) (spacing : option Z) : result (Mesh (PF := floats)) :=
  match spacing with
  | None => ret quad
  | Some s => if s <=? 1 then ret quad else ret coarse
  end.

Definition collaborators : Collaborators (PF := floats) :=
  {| EvalPts := unit;
     Surface := unit;
     evalpts := fun _ => tt;
     sample_size_u := fun _ => 2;
     sample_size_v := fun _ => 2;
     make_triangle_mesh := tessellate;
     surface_normal := fun _ _ _ => ret ((0, 0, 0), (0, 0, 1)) |}.

Definition one_surface : Geometry (CO := collaborators) :=
  mkGeometry (CO := collaborators) 2 [tt].
Definition two_surfaces : Geometry (CO := collaborators) :=
  mkGeometry (CO := collaborators) 2 [tt; tt].
Definition a_curve : Geometry (CO := collaborators) :=
  mkGeometry (CO := collaborators) 1 [tt].

Definition no_kwargs : export_kwargs := mkKwargs None None None.
Definition all_kwargs : export_kwargs := mkKwargs (Some 2) (Some true) (Some true).

(** Collaborators whose tessellator raises. *)
Definition broken_collaborators : Collaborators (PF := floats) :=
  {| EvalPts := unit;
     Surface := unit;
     evalpts := fun _ => tt;
     sample_size_u := fun _ => 2;
     sample_size_v := fun _ => 2;
     make_triangle_mesh := fun _ _ _ _ => raise TypeError;
     surface_normal := fun _ _ _ => raise TypeError |}.

Definition untessellable : Geometry (CO := broken_collaborators) :=
  mkGeometry (CO := broken_collaborators) 2 [tt].

(** The pieces of [two_surfaces] when no normals are asked for. *)
Definition two_quads : list (piece (PF := floats)) := [(quad, []); (quad, [])].

Definition unlines (ls : list string) : string := join (map (fun l => l ++ nl) ls).

(** The text of [two_surfaces] with every option set. *)
Definition two_quads_text : string :=
  unlines ["# Generated by geomdl";
           "v 0 0 0"; "v 1 0 0"; "v 0 1 0"; "v 1 1 0";
           "v 0 0 0"; "v 1 0 0"; "v 0 1 0"; "v 1 1 0";
           "vn 0 0 1"; "vn 0 0 1"; "vn 0 0 1"; "vn 0 0 1";
           "vn 0 0 1"; "vn 0 0 1"; "vn 0 0 1"; "vn 0 0 1";
           "vp 0 0"; "vp 1 0"; "vp 0 1"; "vp 1 1";
           "vp 0 0"; "vp 1 0"; "vp 0 1"; "vp 1 1";
           "f 1 2 3"; "f 2 4 3"; "f 5 6 7"; "f 6 8 7"].

(** The text of [two_surfaces] with no option set. *)
Definition two_quads_plain_text : string :=
  unlines ["# Generated by geomdl";
           "v 0 0 0"; "v 1 0 0"; "v 0 1 0"; "v 1 1 0";
           "v 0 0 0"; "v 1 0 0"; "v 0 1 0"; "v 1 1 0";
           "f 1 2 3"; "f 2 4 3"; "f 5 6 7"; "f 6 8 7"].

(** Three vertices and the triangle over them. *)
Definition vertex_block : string :=
  "v 0 0 0" ++ nl ++ "v 1 0 0" ++ nl ++ "v 0 1 0" ++ nl.
Definition triangle_text : string := vertex_block ++ "f 1 2 3" ++ nl.

(** A second block, with two face lines. *)
Definition second_text : string :=
  "v 5 5 5" ++ nl ++ "v 6 6 6" ++ nl ++ "v 7 7 7" ++ nl
            ++ "f 3 2 1" ++ nl ++ "f 1 2 3" ++ nl.

Definition first : Vertex (PF := floats) := mkVertex (PF := floats) 1 (0, 0, 0).
Definition second : Vertex (PF := floats) := mkVertex (PF := floats) 2 (1, 0, 0).
Definition third : Vertex (PF := floats) := mkVertex (PF := floats) 3 (0, 1, 0).
Definition triangle_face : Face (PF := floats) :=
  mkFace 1 [mkTriangle 1 [first; second; third]].

Definition second_face : Face (PF := floats) :=
  let a := mkVertex (PF := floats) 1 (5, 5, 5) in
  let b := mkVertex (PF := floats) 2 (6, 6, 6) in
  let c := mkVertex (PF := floats) 3 (7, 7, 7) in
  mkFace 1 [mkTriangle 1 [c; b; a]; mkTriangle 2 [a; b; c]].

(** The variables of the parser after the three lines of [vertex_block]. *)
Definition three_vertices : import_state (PF := floats) :=
  mkState false [first; second; third] [] [] 4 1 1.

End Sample.

(** * Further definitions *)

(** ** Further vocabulary *)

(** Every character of [s] satisfies [p]. *)
Fixpoint all_chars (p : ascii -> bool) (s : string) : bool :=
  match s with
  | EmptyString => true
  | String c s' => p c && all_chars p s'
  end.

(** A string of whitespace only, and a non-empty string without any. *)
Definition blank (s : string) : bool := all_chars Py.isspace s.

Definition solid (s : string) : bool :=
  negb (String.eqb s EmptyString) && all_chars (fun c => negb (Py.isspace c)) s.

(** The line [l'] is the line [l] between two runs of whitespace. *)
Definition padded (l l' : string) : Prop :=
  exists a b, blank a = true /\ blank b = true /\ l' = (a ++ l ++ b)%string.

(** Whitespace other than spaces, and a word between two runs of it. *)
Definition tabs (s : string) : bool :=
  all_chars (fun c => Py.isspace c && negb (Ascii.eqb c " ")) s.

Definition tab_padded (w p : string) : Prop :=
  exists a b, tabs a = true /\ tabs b = true /\ p = (a ++ w ++ b)%string.

(** [data[0]] of a line, and the number of lines that start with [tok]. *)
Definition head_token (carr : string) : string := hd EmptyString (tokenize carr).

Definition count_lines (tok : string) (ls : list string) : nat :=
  length (filter (fun l => String.eqb (head_token l) tok) ls).

(** The number of Faces a sequence of lines gives rise to: one for each
    maximal run of [f] lines, lines of other kinds than [v] and [f] not
    counting; [opened] tells whether a run is under way. *)
Fixpoint face_runs (opened : bool) (kinds : list line_kind) : nat :=
  match kinds with
  | [] => if opened then 1 else 0
  | VertexLine :: ks => (if opened then 1 else 0) + face_runs false ks
  | FaceLine :: ks => face_runs true ks
  | OtherLine :: ks => face_runs opened ks
  end.

Section MoreParser.

Context {PF : PyFloat}.

(** A Face as the parser builds them: it has a triangle, its triangles are
    numbered from 1 and their vertices have positive identifiers. *)
Definition face_ok (f : Face) : Prop :=
  face_triangles f <> [] /\
  map triangle_id (face_triangles f) = ids_from 1 (length (face_triangles f)) /\
  Forall (fun t => Forall (fun v => 1 <= vertex_id v) (triangle_vertices t))
         (face_triangles f).

Definition faces_ok (fs : list Face) : Prop :=
  map face_id fs = ids_from 1 (length fs) /\ Forall face_ok fs.

(** The invariant of the loop on the Faces already built. *)
Definition faces_built (st : import_state) : Prop :=
  face_idx st = Py.len (faces st) + 1 /\ faces_ok (faces st).

End MoreParser.

(** The line made of the words [ws] with single spaces between them. *)
Definition body_of (ws : list string) : string := String.concat " " ws.
Definition line_of (ws : list string) : string := body_of ws ++ nl.

Section MoreSerializer.

Context {PF : PyFloat} {CO : Collaborators}.

(** What the collaborators answer for one surface, in the order in which
    the loop body asks them. *)
Definition piece_of (normals : bool) (srf : Surface) : result piece :=
  mesh <- make_triangle_mesh (evalpts srf) (sample_size_u srf) (sample_size_v srf) None ;;
  lines <- (if normals then comprehension (vn_line srf) (fst mesh) else ret []) ;;
  ret (mesh, lines).

(** The vertices and the number of triangles of all the surfaces. *)
Definition all_vertices (ps : list piece) : list MeshVertex :=
  flat_map piece_vertices ps.

Definition total_triangles (ps : list piece) : nat :=
  length (flat_map piece_triangles ps).

(** The words of the lines that the serializer writes. *)
Definition v_words (vert : MeshVertex) : list string :=
  ["v"; str_of_float (x vert); str_of_float (y vert); str_of_float (z vert)].

Definition vp_words (vert : MeshVertex) : list string :=
  ["vp"; str_of_float (fst (uv vert)); str_of_float (snd (uv vert))].

Definition f_words (idx : Z * Z * Z) : list string :=
  let '(a, b, c) := idx in ["f"; Py.str a; Py.str b; Py.str c].

(** [str] and [float] agree on every float, and [str] gives one word. *)
Definition floats_print_and_read : Prop :=
  forall v : float, solid (str_of_float v) = true /\ float_of_str (str_of_float v) = Some v.

Definition floats_print_words : Prop :=
  forall v : float, solid (str_of_float v) = true.

(** What the parser makes of the text of the serializer: the vertices of
    all the surfaces numbered from [id] on, and one triangle for each index
    triple, over the vertices that the indices refer to. *)
Fixpoint number_from (id : Z) (verts : list MeshVertex) : list Vertex :=
  match verts with
  | [] => []
  | vert :: verts' => mkVertex id (x vert, y vert, z vert) :: number_from (id + 1) verts'
  end.

Definition corner (vs : list Vertex) (i : Z) : list Vertex :=
  match nth_error vs (Z.to_nat (i - 1)) with
  | Some v => [v]
  | None => []
  end.

Fixpoint triangles_from (vs : list Vertex) (id : Z) (triples : list (Z * Z * Z))
  : list Triangle :=
  match triples with
  | [] => []
  | (a, b, c) :: triples' =>
      mkTriangle id (corner vs a ++ corner vs b ++ corner vs c)
      :: triangles_from vs (id + 1) triples'
  end.

Definition reimported (ps : list piece) : list Face :=
  match face_triples 0 ps with
  | [] => []
  | triples => [mkFace 1 (triangles_from (number_from 1 (all_vertices ps)) 1 triples)]
  end.

(** The words of a [vn] line. *)
Definition vn_shaped (ws : list string) : Prop :=
  hd EmptyString ws = "vn" /\ (floats_print_words -> Forall (fun w => solid w = true) ws).

(** The words of the comment line. *)
Definition header_words : list string := ["#"; "Generated"; "by"; "geomdl"].

End MoreSerializer.

(** ** Files *)

(** Modelled from the spec: [exc_helpers.read_file(path)] and
    [exc_helpers.write_file(path, text)] (module [exc_helpers], absent from
    the sources), over a state of the files. Reading leaves the files as
    they are; writing gives a value or raises, and the files that it
    leaves behind. *)
Class Files : Type := {
  Disk : Type;
  Written : Type;
  read_file : string -> Disk -> result string;
  write_file : string -> string -> Disk -> result Written * Disk
}.

Section FileFunctions.

Context {PF : PyFloat} {CO : Collaborators} {FS : Files}.

(** [import_obj(file_name, callback=callback_func)] (lines 43-90). *)
Definition import_obj_file {R} (callback_func : list Face -> R) (file_name : string)
           (disk : Disk) : result R :=
  content <- read_file file_name disk ;;
  import_obj_with callback_func content.

(** [export_obj] (line 191): the argument of [write_file] is evaluated
    first, so that an export that raises leaves the files alone. *)
Definition export_obj (surface : Geometry) (file_name : string) (kwargs : export_kwargs)
           (disk : Disk) : result Written * Disk :=
  match export_obj_str surface kwargs with
  | inl e => (inl e, disk)
  | inr text => write_file file_name text disk
  end.

(** A file holds what was last written to it. *)
Definition reads_what_was_written : Prop :=
  forall file_name text disk w disk',
    write_file file_name text disk = (inr w, disk') ->
    read_file file_name disk' = inr text.

End FileFunctions.

(** ** Further sample data *)

Module Demo.

Definition quad_normals : list string :=
  ["vn 0 0 1" ++ nl; "vn 0 0 1" ++ nl; "vn 0 0 1" ++ nl; "vn 0 0 1" ++ nl].

(** The pieces of [Sample.two_surfaces] when normals are asked for. *)
Definition two_quads_with_normals : list (piece (PF := Sample.floats)) :=
  [(Sample.quad, quad_normals); (Sample.quad, quad_normals)].

Definition cr : string := String "013" EmptyString.

(** [Sample.triangle_text] with indentation, a trailing space and CRLF
    line ends. *)
Definition padded_text : string :=
  "  v 0 0 0" ++ cr ++ nl ++ "v 1 0 0" ++ cr ++ nl
              ++ Sample.tab ++ "v 0 1 0" ++ cr ++ nl ++ "f 1 2 3 " ++ cr ++ nl.

(** [Sample.triangle_text] among lines of other kinds. *)
Definition commented_text : string :=
  "# a triangle" ++ nl ++ "v 0 0 0" ++ nl ++ "vn 0 0 1" ++ nl ++ "v 1 0 0" ++ nl
                 ++ nl ++ "v 0 1 0" ++ nl ++ "g patch" ++ nl ++ "f 1 2 3" ++ nl.

(** A face line in the form vertex/texture/normal. *)
Definition slashed_text : string :=
  Sample.vertex_block ++ "f 1/1/1 2/2/2 3/3/3" ++ nl.

(** Lines of other kinds only, and vertices without a face line. *)
Definition comments_only : string :=
  "# nothing here" ++ nl ++ nl ++ "vn 0 0 1" ++ nl.

(** A tessellator whose mesh leaves its last vertex out of every triangle:
    the four vertices of [Sample.quad] and the first of its triangles. *)
Definition sparse : Mesh (PF := Sample.floats) :=
  (fst Sample.quad, [mkMeshTriangle (0, 1, 2)]).

Definition sparse_collaborators : Collaborators (PF := Sample.floats) :=
  {| EvalPts := unit;
     Surface := unit;
     evalpts := fun _ => tt;
     sample_size_u := fun _ => 2;
     sample_size_v := fun _ => 2;
     make_triangle_mesh := fun _ _ _ _ => ret sparse;
     surface_normal := fun _ _ _ => ret ((0, 0, 0), (0, 0, 1)) |}.

Definition sparse_surface : Geometry (CO := sparse_collaborators) :=
  mkGeometry (CO := sparse_collaborators) 2 [tt].

Definition sparse_pieces : list (piece (PF := Sample.floats)) := [(sparse, [])].

Definition sparse_text : string :=
  Sample.unlines ["# Generated by geomdl";
                  "v 0 0 0"; "v 1 0 0"; "v 0 1 0"; "v 1 1 0";
                  "f 1 2 3"].

(** A tessellator whose mesh has a triangle corner that is none of its
    vertices: the three vertices of [Sample.coarse] and the triangle
    (0, 1, 5). *)
Definition dangling : Mesh (PF := Sample.floats) :=
  (fst Sample.coarse, [mkMeshTriangle (0, 1, 5)]).

Definition dangling_collaborators : Collaborators (PF := Sample.floats) :=
  {| EvalPts := unit;
     Surface := unit;
     evalpts := fun _ => tt;
     sample_size_u := fun _ => 2;
     sample_size_v := fun _ => 2;
     make_triangle_mesh := fun _ _ _ _ => ret dangling;
     surface_normal := fun _ _ _ => ret ((0, 0, 0), (0, 0, 1)) |}.

Definition dangling_surface : Geometry (CO := dangling_collaborators) :=
  mkGeometry (CO := dangling_collaborators) 2 [tt].

Definition dangling_pieces : list (piece (PF := Sample.floats)) := [(dangling, [])].

Definition dangling_text : string :=
  Sample.unlines ["# Generated by geomdl";
                  "v 0 0 0"; "v 1 0 0"; "v 0 1 0";
                  "f 1 2 6"].

(** Files as a list of names and contents, the last written first. *)
Definition files : Files :=
  {| Disk := list (string * string);
     Written := unit;
     read_file := fun file_name disk =>
       match find (fun entry => String.eqb (fst entry) file_name) disk with
       | Some entry => ret (snd entry)
       | None => raise (GeomdlError "File not found")
       end;
     write_file := fun file_name text disk => (ret tt, (file_name, text) :: disk) |}.

End Demo.

(** * Properties *)

(** ** The error monad and the built-ins *)

Section MonadFacts.

Lemma bind_ret_r {A} (c : result A) : bind c ret = c.
Proof. destruct c; reflexivity. Qed.

Lemma for_each_app {S A} (body : S -> A -> result S) (l1 l2 : list A) (s : S) :
  for_each body (l1 ++ l2) s = bind (for_each body l1 s) (for_each body l2).
Proof.
  revert s; induction l1 as [|a l1 IH]; intros s; simpl; [reflexivity|].
  destruct (body s a) as [e|s']; simpl; [reflexivity|apply IH].
Qed.

Lemma for_each_filter {S A} (body : S -> A -> result S) (keep : A -> bool) (l : list A) :
  (forall s a, keep a = false -> body s a = ret s) ->
  forall s, for_each body (filter keep l) s = for_each body l s.
Proof.
  intros Hskip; induction l as [|a l IH]; intros s; simpl; [reflexivity|].
  destruct (keep a) eqn:Ka; simpl.
  - destruct (body s a); simpl; [reflexivity|apply IH].
  - rewrite (Hskip s a Ka); simpl. apply IH.
Qed.

End MonadFacts.

Section GetItem.

Context {A : Type}.
Implicit Types (l : list A) (i : Z).

Lemma getitem_exn l i e : Py.getitem l i = inl e -> e = IndexError.
Proof.
  unfold Py.getitem.
  destruct ((0 <=? _) && _); [destruct (nth_error _ _)|]; simpl; intros E;
    inversion E; reflexivity.
Qed.

Lemma getitem_outside l i :
  Py.len l <= i \/ i < - Py.len l -> Py.getitem l i = inl IndexError.
Proof.
  unfold Py.getitem, Py.len. intros Hout.
  destruct (i <? 0) eqn:Hneg;
    [apply Z.ltb_lt in Hneg | apply Z.ltb_ge in Hneg].
  - replace (0 <=? i + Z.of_nat (length l)) with false; [reflexivity|].
    symmetry; apply Z.leb_gt; lia.
  - replace (i <? Z.of_nat (length l)) with false;
      [rewrite andb_false_r; reflexivity|].
    symmetry; apply Z.ltb_ge; lia.
Qed.

Lemma getitem_front l i :
  0 <= i < Py.len l ->
  exists a, Py.getitem l i = inr a /\ nth_error l (Z.to_nat i) = Some a.
Proof.
  unfold Py.getitem, Py.len. intros [Hlo Hhi].
  replace (i <? 0) with false by (symmetry; apply Z.ltb_ge; lia).
  replace (0 <=? i) with true by (symmetry; apply Z.leb_le; lia).
  replace (i <? Z.of_nat (length l)) with true by (symmetry; apply Z.ltb_lt; lia).
  simpl. destruct (nth_error l (Z.to_nat i)) as [a|] eqn:E.
  - exists a; split; reflexivity.
  - apply nth_error_None in E. lia.
Qed.

Lemma getitem_back l i :
  - Py.len l <= i < 0 ->
  exists a, Py.getitem l i = inr a /\ nth_error (rev l) (Z.to_nat (- i - 1)) = Some a.
Proof.
  unfold Py.getitem, Py.len. intros [Hlo Hhi].
  replace (i <? 0) with true by (symmetry; apply Z.ltb_lt; lia).
  replace (0 <=? i + Z.of_nat (length l)) with true by (symmetry; apply Z.leb_le; lia).
  replace (i + Z.of_nat (length l) <? Z.of_nat (length l)) with true
    by (symmetry; apply Z.ltb_lt; lia).
  simpl. destruct (nth_error l (Z.to_nat (i + Z.of_nat (length l)))) as [a|] eqn:E.
  - exists a; split; [reflexivity|].
    rewrite nth_error_rev.
    replace (Z.to_nat (- i - 1) <? length l)%nat with true
      by (symmetry; apply Nat.ltb_lt; lia).
    rewrite <- E. f_equal. lia.
  - apply nth_error_None in E. lia.
Qed.

Lemma getitem_In l i a : Py.getitem l i = inr a -> In a l.
Proof.
  unfold Py.getitem.
  destruct ((0 <=? _) && _); [|discriminate].
  destruct (nth_error _ _) eqn:E; [|discriminate].
  intros E'; inversion E'; subst. eapply nth_error_In; eassumption.
Qed.

End GetItem.

(** ** The loop body of the parser *)

Section ParserFacts.

Context {PF : PyFloat}.
Implicit Types (st : import_state) (carr content : string).

Lemma process_line_other st carr :
  recognized carr = false -> process_line st carr = ret st.
Proof.
  unfold recognized, kind_of, process_line.
  destruct (String.eqb (hd EmptyString (tokenize carr)) "v"); [discriminate|].
  destruct (String.eqb (hd EmptyString (tokenize carr)) "f"); [discriminate|].
  reflexivity.
Qed.

Lemma process_line_vertex st carr :
  kind_of carr = VertexLine -> process_line st carr = vertex_line st (tokenize carr).
Proof.
  unfold kind_of, process_line.
  destruct (String.eqb_spec (hd EmptyString (tokenize carr)) "v") as [E|_].
  - intros _. rewrite E. simpl. apply bind_ret_r.
  - destruct (String.eqb _ "f"); discriminate.
Qed.

Lemma process_line_face st carr :
  kind_of carr = FaceLine -> process_line st carr = face_line st (tokenize carr).
Proof.
  unfold kind_of, process_line.
  destruct (String.eqb (hd EmptyString (tokenize carr)) "v"); [discriminate|].
  destruct (String.eqb (hd EmptyString (tokenize carr)) "f"); [|discriminate].
  reflexivity.
Qed.

Lemma import_lines_recognized content :
  import_lines (lines_of content)
  = for_each process_line (recognized_lines content) initial_state.
Proof.
  unfold import_lines, recognized_lines. symmetry.
  apply for_each_filter. intros s a Ha. apply process_line_other, Ha.
Qed.

Lemma for_each_other (ls : list string) st :
  Forall (fun l => recognized l = false) ls -> for_each process_line ls st = ret st.
Proof.
  induction 1 as [|l ls Hl _ IH]; simpl; [reflexivity|].
  rewrite (process_line_other st l Hl). simpl. exact IH.
Qed.

Lemma final_faces_pending st :
  triangles st <> [] ->
  final_faces st = (faces st ++ [mkFace (face_idx st) (triangles st)])%list.
Proof.
  unfold final_faces. destruct (triangles st); [congruence|reflexivity].
Qed.

Lemma resolve_exn (vs : list Vertex) tok i :
  Py.int tok = inr i ->
  forall e, resolve vs tok = inl e -> e = IndexError.
Proof.
  unfold resolve. intros -> e. simpl. apply getitem_exn.
Qed.

Lemma comprehension_resolve_outside (vs : list Vertex) (toks : list string) tok t :
  Forall (fun s => exists i, Py.int s = inr i) toks ->
  In tok toks -> Py.int tok = inr t ->
  Py.len vs < t \/ t <= - Py.len vs ->
  comprehension (resolve vs) toks = inl IndexError.
Proof.
  intros Hall. induction Hall as [|s toks [i Hi] _ IH]; intros Hin Ht Hout;
    [contradiction|].
  simpl. destruct (resolve vs s) as [e|v] eqn:Es; simpl.
  - f_equal. exact (resolve_exn vs s i Hi e Es).
  - destruct Hin as [->|Hin].
    + unfold resolve in Es. rewrite Ht in Es. simpl in Es.
      rewrite getitem_outside in Es by lia. discriminate.
    + rewrite IH by assumption. reflexivity.
Qed.

End ParserFacts.

(** ** Numbering and the invariant of the parser *)

Section Numbering.

Lemma ids_from_snoc first count :
  ids_from first (S count) = (ids_from first count ++ [first + Z.of_nat count])%list.
Proof.
  revert first; induction count as [|n IH]; intros first.
  - simpl. f_equal. lia.
  - change (ids_from first (S (S n))) with (first :: ids_from (first + 1) (S n)).
    rewrite IH. simpl. do 2 f_equal. f_equal. lia.
Qed.

Lemma ids_from_In first count i :
  In i (ids_from first count) -> first <= i < first + Z.of_nat count.
Proof.
  revert first; induction count as [|n IH]; intros first; simpl; [contradiction|].
  intros [<-|Hin]; [lia|]. apply IH in Hin. lia.
Qed.

End Numbering.

Section Invariant.

Context {PF : PyFloat}.
Implicit Types (st : import_state) (carr content : string).

Lemma Vertex_new_id args id v : Vertex_new args id = inr v -> vertex_id v = id.
Proof.
  unfold Vertex_new. destruct args as [|a [|b [|c [|d args]]]]; try discriminate.
  destruct (py_float a); simpl; [discriminate|].
  destruct (py_float b); simpl; [discriminate|].
  destruct (py_float c); simpl; [discriminate|].
  intros E; inversion E; reflexivity.
Qed.

Lemma comprehension_resolve_In (vs : list Vertex) toks refs :
  comprehension (resolve vs) toks = inr refs -> Forall (fun v => In v vs) refs.
Proof.
  revert refs; induction toks as [|tok toks IH]; intros refs; simpl.
  - intros E; inversion E; constructor.
  - destruct (resolve vs tok) as [e|v] eqn:Ev; simpl; [discriminate|].
    destruct (comprehension (resolve vs) toks) as [e|vs']; simpl; [discriminate|].
    intros E; inversion E; subst. constructor; [|apply IH; reflexivity].
    unfold resolve in Ev. destruct (Py.int tok); simpl in Ev; [discriminate|].
    eapply getitem_In; eassumption.
Qed.

Lemma well_formed_initial : well_formed initial_state.
Proof. repeat split; simpl; try reflexivity; try constructor; congruence. Qed.

Lemma well_formed_close_face st : well_formed (close_face st).
Proof. repeat split; simpl; try reflexivity; try constructor; congruence. Qed.

Lemma vertex_line_well_formed st data st' :
  well_formed st -> vertex_line st data = inr st' ->
  well_formed st' /\ on_face st' = false.
Proof.
  intros Hwf. unfold vertex_line.
  set (st0 := if on_face st then close_face st else st).
  assert (well_formed st0 /\ on_face st0 = false) as [Hwf0 Hoff].
  { subst st0. destruct (on_face st) eqn:Hon.
    - split; [apply well_formed_close_face|reflexivity].
    - split; assumption. }
  destruct (Vertex_new (tl data) (vert_idx st0)) as [e|v] eqn:Ev; simpl; [discriminate|].
  intros E; inversion E; subst st'; clear E.
  destruct Hwf0 as (Hnone & Hsome & Hvi & Hti & Hvn & Htn & Hrefs).
  split; [|exact Hoff].
  repeat split; simpl.
  - intros _. apply Hnone, Hoff.
  - rewrite Hoff. discriminate.
  - unfold Py.len in *. rewrite length_app. simpl. lia.
  - exact Hti.
  - unfold numbered in *. rewrite map_app, length_app, Hvn. simpl.
    rewrite Nat.add_1_r, ids_from_snoc. f_equal.
    rewrite (Vertex_new_id _ _ _ Ev), Hvi. unfold Py.len. f_equal. lia.
  - exact Htn.
  - eapply Forall_impl; [|exact Hrefs]. intros t Ht.
    eapply Forall_impl; [|exact Ht]. intros v0 Hin. apply in_or_app. left. exact Hin.
Qed.

Lemma face_line_well_formed st data st' :
  well_formed st -> face_line st data = inr st' ->
  well_formed st' /\ on_face st' = true.
Proof.
  intros (Hnone & Hsome & Hvi & Hti & Hvn & Htn & Hrefs). unfold face_line.
  destruct (comprehension (resolve (vertices st)) (tl data)) as [e|refs] eqn:Er;
    simpl; [discriminate|].
  intros E; inversion E; subst st'; clear E.
  split; [|reflexivity].
  repeat split; simpl.
  - discriminate.
  - intros _ Hnil. apply app_eq_nil in Hnil. destruct Hnil; discriminate.
  - exact Hvi.
  - unfold Py.len in *. rewrite length_app. simpl. lia.
  - exact Hvn.
  - rewrite map_app, length_app, Htn. simpl.
    rewrite Nat.add_1_r, ids_from_snoc. f_equal.
    rewrite Hti. unfold Py.len. f_equal. lia.
  - apply Forall_app. split; [exact Hrefs|].
    constructor; [|constructor]. simpl.
    eapply comprehension_resolve_In; eassumption.
Qed.

Lemma process_line_well_formed st carr st' :
  well_formed st -> process_line st carr = inr st' -> well_formed st'.
Proof.
  intros Hwf. destruct (kind_of carr) eqn:K.
  - rewrite (process_line_vertex st carr K). intros E.
    eapply vertex_line_well_formed; eassumption.
  - rewrite (process_line_face st carr K). intros E.
    eapply face_line_well_formed; eassumption.
  - rewrite process_line_other by (unfold recognized; rewrite K; reflexivity).
    intros E; inversion E; subst; exact Hwf.
Qed.

Lemma for_each_well_formed (ls : list string) st st' :
  well_formed st -> for_each process_line ls st = inr st' -> well_formed st'.
Proof.
  revert st; induction ls as [|l ls IH]; intros st Hwf; simpl.
  - intros E; inversion E; subst; exact Hwf.
  - destruct (process_line st l) as [e|s1] eqn:E1; simpl; [discriminate|].
    apply IH. eapply process_line_well_formed; eassumption.
Qed.

End Invariant.

(** ** Blocks of lines *)

Section Blocks.

Context {PF : PyFloat}.
Implicit Types (st : import_state) (carr content : string).

Lemma close_face_shift st done k :
  close_face (shift done k st) = shift done k (close_face st).
Proof.
  unfold close_face, shift; simpl.
  rewrite map_app, app_assoc. simpl. unfold bump at 3. simpl.
  f_equal. lia.
Qed.

Lemma process_line_shift st carr done k :
  process_line (shift done k st) carr
  = bind (process_line st carr) (fun s => ret (shift done k s)).
Proof.
  destruct (kind_of carr) eqn:K.
  - rewrite !(process_line_vertex _ carr K). unfold vertex_line.
    change (on_face (shift done k st)) with (on_face st).
    destruct (on_face st).
    + rewrite close_face_shift.
      change (vert_idx (shift done k (close_face st))) with (vert_idx (close_face st)).
      destruct (Vertex_new _ _); reflexivity.
    + change (vert_idx (shift done k st)) with (vert_idx st).
      destruct (Vertex_new _ _); reflexivity.
  - rewrite !(process_line_face _ carr K). unfold face_line.
    change (vertices (shift done k st)) with (vertices st).
    destruct (comprehension _ _); reflexivity.
  - rewrite !process_line_other by (unfold recognized; rewrite K; reflexivity).
    reflexivity.
Qed.

Lemma for_each_shift (ls : list string) st done k :
  for_each process_line ls (shift done k st)
  = bind (for_each process_line ls st) (fun s => ret (shift done k s)).
Proof.
  revert st; induction ls as [|l ls IH]; intros st; simpl; [reflexivity|].
  rewrite process_line_shift.
  destruct (process_line st l) as [e|s1]; simpl; [reflexivity|apply IH].
Qed.

Lemma final_faces_shift st done k :
  final_faces (shift done k st) = (done ++ map (bump k) (final_faces st))%list.
Proof.
  unfold final_faces, shift; simpl.
  destruct (triangles st); [reflexivity|].
  rewrite map_app, app_assoc. reflexivity.
Qed.

Lemma vertex_line_restart st carr :
  on_face st = true -> kind_of carr = VertexLine ->
  process_line st carr = process_line (close_face st) carr.
Proof.
  intros Hon K. rewrite !(process_line_vertex _ carr K).
  unfold vertex_line. rewrite Hon. reflexivity.
Qed.

(** A run of [v] lines from a state with no face open only grows the
    vertex buffer. *)
Lemma vertex_lines_run (ls : list string) st st' :
  Forall (fun l => kind_of l = VertexLine) ls ->
  on_face st = false ->
  for_each process_line ls st = inr st' ->
  on_face st' = false /\ faces st' = faces st /\ face_idx st' = face_idx st /\
  triangles st' = triangles st /\
  length (vertices st') = (length (vertices st) + length ls)%nat.
Proof.
  intros Hall; revert st; induction Hall as [|l ls K _ IH]; intros st Hoff; simpl.
  - intros E; inversion E; subst. repeat split; try assumption. lia.
  - rewrite (process_line_vertex st l K). unfold vertex_line. rewrite Hoff.
    destruct (Vertex_new _ _) as [e|v]; simpl; [discriminate|].
    intros E. apply IH in E; [|exact Hoff]. simpl in E.
    destruct E as (H1 & H2 & H3 & H4 & H5).
    repeat split; try assumption. rewrite H5, length_app. simpl. lia.
Qed.

(** A run of [f] lines only grows the triangle buffer. *)
Lemma face_lines_run (ls : list string) st st' :
  Forall (fun l => kind_of l = FaceLine) ls ->
  for_each process_line ls st = inr st' ->
  faces st' = faces st /\ face_idx st' = face_idx st /\
  vertices st' = vertices st /\
  length (triangles st') = (length (triangles st) + length ls)%nat /\
  (ls <> [] -> on_face st' = true).
Proof.
  intros Hall; revert st; induction Hall as [|l ls K _ IH]; intros st; simpl.
  - intros E; inversion E; subst. repeat split; try lia. congruence.
  - rewrite (process_line_face st l K). unfold face_line.
    destruct (comprehension _ _) as [e|refs]; simpl; [discriminate|].
    intros E. pose proof E as E'. apply IH in E. simpl in E.
    destruct E as (H1 & H2 & H3 & H4 & H5).
    repeat split; try assumption.
    + rewrite H4, length_app. simpl. lia.
    + intros _. destruct ls as [|l' ls'].
      * simpl in E'. inversion E'; reflexivity.
      * apply H5. discriminate.
Qed.

(** A vertex block followed by a face block, read from the start. *)
Lemma block_run (vblock fblock : list string) st :
  Forall (fun l => kind_of l = VertexLine) vblock ->
  Forall (fun l => kind_of l = FaceLine) fblock ->
  fblock <> [] ->
  for_each process_line (vblock ++ fblock) initial_state = inr st ->
  on_face st = true /\ faces st = [] /\ face_idx st = 1 /\
  length (vertices st) = length vblock /\
  length (triangles st) = length fblock /\
  well_formed st.
Proof.
  intros Hv Hf Hne Hrun.
  pose proof (for_each_well_formed _ _ _ well_formed_initial Hrun) as Hwf.
  rewrite for_each_app in Hrun.
  destruct (for_each process_line vblock initial_state) as [e|sa] eqn:Ea;
    simpl in Hrun; [discriminate|].
  apply vertex_lines_run in Ea; [|assumption|reflexivity].
  destruct Ea as (A1 & A2 & A3 & A4 & A5).
  apply face_lines_run in Hrun; [|assumption].
  destruct Hrun as (B1 & B2 & B3 & B4 & B5).
  split; [apply B5, Hne|].
  split; [rewrite B1, A2; reflexivity|].
  split; [rewrite B2, A3; reflexivity|].
  split; [rewrite B3, A5; reflexivity|].
  split; [rewrite B4, A4; reflexivity|exact Hwf].
Qed.

End Blocks.

Section TwoBlocks.

Context {PF : PyFloat}.
Implicit Types (st : import_state) (carr content : string).

(** What a successful import of one block returns. *)
Lemma import_block content vblock fblock r :
  Forall (fun l => kind_of l = VertexLine) vblock ->
  Forall (fun l => kind_of l = FaceLine) fblock ->
  fblock <> [] ->
  recognized_lines content = (vblock ++ fblock)%list ->
  import_obj content = inr r ->
  exists st,
    for_each process_line (vblock ++ fblock) initial_state = inr st /\
    r = [mkFace 1 (triangles st)] /\
    on_face st = true /\ faces st = [] /\ face_idx st = 1 /\
    length (vertices st) = length vblock /\
    length (triangles st) = length fblock /\
    well_formed st.
Proof.
  intros Hv Hf Hne Hlines. unfold import_obj, import_obj_with.
  fold (lines_of content). rewrite import_lines_recognized, Hlines.
  destruct (for_each process_line (vblock ++ fblock) initial_state) as [e|st] eqn:Hrun;
    simpl; [discriminate|].
  intros E; inversion E; subst r; clear E.
  destruct (block_run vblock fblock st Hv Hf Hne Hrun) as (Hon & Hfs & Hfi & Hlv & Hlt & Hwf).
  exists st. split; [reflexivity|]. split; [|tauto].
  unfold default_callback. rewrite final_faces_pending, Hfs, Hfi; [reflexivity|].
  apply Hwf, Hon.
Qed.

Lemma block_numbering st :
  well_formed st ->
  local_numbering (length (vertices st)) (length (triangles st))
                  (mkFace 1 (triangles st)).
Proof.
  intros (_ & _ & _ & _ & Hvn & Htn & Hrefs). split; simpl; [exact Htn|].
  eapply Forall_impl; [|exact Hrefs]. intros t Ht.
  eapply Forall_impl; [|exact Ht]. intros v Hin.
  apply (in_map vertex_id) in Hin. rewrite Hvn in Hin.
  apply ids_from_In in Hin. lia.
Qed.

End TwoBlocks.

(** ** The text and the loop of the serializer *)

Section Text.

Lemma string_app_assoc (a b c : string) : ((a ++ b) ++ c = a ++ (b ++ c))%string.
Proof. induction a as [|ch a IH]; simpl; [reflexivity|rewrite IH; reflexivity]. Qed.

Context {PF : PyFloat} {CO : Collaborators}.

Lemma append_all_join (line : string) (block : list string) :
  append_all line block = (line ++ join block)%string.
Proof.
  unfold append_all. revert line; induction block as [|l block IH]; intros line; simpl.
  - induction line as [|ch line IHl]; simpl; [reflexivity|rewrite <- IHl; reflexivity].
  - rewrite IH. apply string_app_assoc.
Qed.

Lemma assemble_layout (st : export_state) :
  assemble st
  = (header ++ join (str_v st) ++ join (str_vn st) ++ join (str_vp st)
            ++ join (str_f st))%string.
Proof.
  unfold assemble. rewrite !append_all_join, !string_app_assoc. reflexivity.
Qed.

Lemma f_line_render (offset : Z) (t : MeshTriangle) :
  f_line offset t = render_face (global_face offset t).
Proof.
  unfold f_line, render_face, global_face. destruct (data t) as [[i j] k]. reflexivity.
Qed.

End Text.

Section Loop.

Context {PF : PyFloat} {CO : Collaborators}.
Implicit Types (st : export_state) (srf : Surface) (p : piece) (ps : list piece).

Lemma len_app {A} (l1 l2 : list A) : Py.len (l1 ++ l2) = Py.len l1 + Py.len l2.
Proof. unfold Py.len. rewrite length_app. lia. Qed.

Lemma len_map {A B} (f : A -> B) (l : list A) : Py.len (map f l) = Py.len l.
Proof. unfold Py.len. rewrite length_map. reflexivity. Qed.

Lemma len_nonneg {A} (l : list A) : 0 <= Py.len l.
Proof. unfold Py.len. lia. Qed.

Lemma total_vertices_nonneg ps : 0 <= total_vertices ps.
Proof.
  induction ps as [|p ps IH]; simpl; [lia|].
  pose proof (len_nonneg (piece_vertices p)). lia.
Qed.

Lemma total_vertices_app ps qs :
  total_vertices (ps ++ qs) = total_vertices ps + total_vertices qs.
Proof. induction ps as [|p ps IH]; simpl; [reflexivity|rewrite IH; lia]. Qed.

Lemma v_block_len ps : Py.len (v_block ps) = total_vertices ps.
Proof.
  induction ps as [|p ps IH]; simpl; [reflexivity|].
  rewrite len_app, len_map, IH. reflexivity.
Qed.

Lemma face_triples_app offset ps qs :
  face_triples offset (ps ++ qs)
  = (face_triples offset ps ++ face_triples (offset + total_vertices ps) qs)%list.
Proof.
  revert offset; induction ps as [|p ps IH]; intros offset; simpl.
  - rewrite Z.add_0_r. reflexivity.
  - rewrite IH, <- app_assoc. do 3 f_equal. lia.
Qed.

(** One turn of the loop, when the collaborators answer. *)
Lemma export_surface_piece (normals parametric : bool) st srf p :
  tessellated normals srf p ->
  export_surface normals parametric st srf
  = inr (mkExport
           (str_v st ++ map v_line (piece_vertices p))
           (str_vn st ++ piece_normals p)
           (str_vp st ++ vp_block parametric [p])
           (str_f st ++ map (f_line (vertex_offset st)) (piece_triangles p))
           (Py.len (str_v st ++ map v_line (piece_vertices p)))).
Proof.
  intros [Hmesh Hnormals]. unfold export_surface. rewrite Hmesh. simpl.
  destruct p as [[vs ts] ns]; unfold piece_vertices, piece_triangles, piece_normals in *;
    simpl in *.
  unfold vp_block. destruct normals.
  - rewrite Hnormals. simpl. destruct parametric; simpl;
      rewrite ?app_nil_r; reflexivity.
  - subst ns. simpl. destruct parametric; simpl; rewrite ?app_nil_r; reflexivity.
Qed.

(** A turn of the loop that does not raise was answered by the
    collaborators. *)
Lemma export_surface_answered (normals parametric : bool) st srf st' :
  export_surface normals parametric st srf = inr st' ->
  exists p, tessellated normals srf p.
Proof.
  unfold export_surface, tessellated.
  destruct (make_triangle_mesh _ _ _ _) as [e|[vs ts]]; simpl; [discriminate|].
  destruct normals.
  - destruct (comprehension (vn_line srf) vs) as [e|ns] eqn:En; simpl; [discriminate|].
    intros _. exists ((vs, ts), ns). split; [reflexivity|exact En].
  - intros _. exists ((vs, ts), []). split; reflexivity.
Qed.

Lemma export_loop (normals parametric : bool) (srfs : list Surface) ps :
  Forall2 (tessellated normals) srfs ps ->
  forall st,
    vertex_offset st = Py.len (str_v st) ->
    for_each (export_surface normals parametric) srfs st
    = inr (mkExport
             (str_v st ++ v_block ps)
             (str_vn st ++ vn_block ps)
             (str_vp st ++ vp_block parametric ps)
             (str_f st ++ map render_face (face_triples (vertex_offset st) ps))
             (vertex_offset st + total_vertices ps)).
Proof.
  induction 1 as [|srf p srfs ps Hp _ IH]; intros st Hoff.
  - simpl. unfold vp_block. destruct parametric; simpl;
      rewrite !app_nil_r, Z.add_0_r; destruct st; reflexivity.
  - simpl. rewrite (export_surface_piece normals parametric st srf p Hp). simpl.
    rewrite IH by reflexivity. simpl.
    rewrite len_app, len_map, <- Hoff, map_app, map_map.
    rewrite <- (app_assoc (str_v st)), <- (app_assoc (str_vn st)), <- (app_assoc (str_f st)).
    assert (forall l : list string,
               (l ++ vp_block parametric [p]) ++ vp_block parametric ps
               = l ++ vp_block parametric (p :: ps))%list as Hvp.
    { intros l. unfold vp_block. destruct parametric; simpl;
        rewrite ?app_nil_r, <- ?app_assoc; reflexivity. }
    rewrite Hvp, Z.add_assoc.
    rewrite (map_ext _ _ (f_line_render (vertex_offset st))).
    reflexivity.
Qed.

Lemma export_loop_answered (normals parametric : bool) (srfs : list Surface) st st' :
  for_each (export_surface normals parametric) srfs st = inr st' ->
  exists ps, Forall2 (tessellated normals) srfs ps.
Proof.
  revert st; induction srfs as [|srf srfs IH]; intros st; simpl.
  - intros _. exists []. constructor.
  - destruct (export_surface normals parametric st srf) as [e|s1] eqn:E1; simpl;
      [discriminate|].
    intros Hrest. destruct (export_surface_answered _ _ _ _ _ E1) as [p Hp].
    destruct (IH _ Hrest) as [ps Hps]. exists (p :: ps). constructor; assumption.
Qed.

(** The text of a call that passes the two checks. *)
Lemma export_text (surface : Geometry) (kwargs : export_kwargs) ps :
  pdimension surface = 2 ->
  1 <= kwargs_get (kw_vertex_spacing kwargs) 1 ->
  Forall2 (tessellated (kwargs_get (kw_vertex_normals kwargs) false)) (iter surface) ps ->
  export_obj_str surface kwargs
  = inr (header ++ join (v_block ps) ++ join (vn_block ps)
                ++ join (vp_block (kwargs_get (kw_parametric_vertices kwargs) false) ps)
                ++ join (map render_face (face_triples 0 ps)))%string.
Proof.
  intros Hdim Hspacing Hps. unfold export_obj_str.
  rewrite Hdim. simpl.
  replace (kwargs_get (kw_vertex_spacing kwargs) 1 <? 1) with false
    by (symmetry; apply Z.ltb_ge; exact Hspacing).
  rewrite (export_loop _ _ _ _ Hps) by reflexivity. simpl.
  rewrite assemble_layout. reflexivity.
Qed.

Lemma export_checks (surface : Geometry) (kwargs : export_kwargs) text :
  export_obj_str surface kwargs = inr text ->
  pdimension surface = 2 /\ 1 <= kwargs_get (kw_vertex_spacing kwargs) 1 /\
  exists ps,
    Forall2 (tessellated (kwargs_get (kw_vertex_normals kwargs) false)) (iter surface) ps.
Proof.
  unfold export_obj_str.
  destruct (pdimension surface =? 2) eqn:Hdim; simpl; [|discriminate].
  destruct (kwargs_get (kw_vertex_spacing kwargs) 1 <? 1) eqn:Hsp; [discriminate|].
  destruct (for_each _ _ _) as [e|st] eqn:Hloop; simpl; [discriminate|].
  intros _. split; [apply Z.eqb_eq, Hdim|]. split; [apply Z.ltb_ge, Hsp|].
  eapply export_loop_answered; eassumption.
Qed.

End Loop.

Section Indices.

Lemma max_index_upper (l : list Z) (bound : Z) :
  0 <= bound -> Forall (fun i => i <= bound) l -> max_index l <= bound.
Proof.
  intros Hb. induction 1 as [|i l Hi _ IH]; simpl; lia.
Qed.

Lemma max_index_In (l : list Z) (i : Z) : In i l -> i <= max_index l.
Proof.
  induction l as [|j l IH]; simpl; [contradiction|].
  intros [->|Hin]; [lia|]. apply IH in Hin. lia.
Qed.

Lemma max_index_nonneg (l : list Z) : 0 <= max_index l.
Proof.
  induction l as [|j l IH]; simpl; lia.
Qed.

Lemma max_index_reached (l : list Z) : 0 < max_index l -> In (max_index l) l.
Proof.
  induction l as [|j l IH]; [simpl; lia|].
  change (max_index (j :: l)) with (Z.max j (max_index l)).
  intros Hpos. destruct (Z.max_spec j (max_index l)) as [[Hlt E]|[Hle E]]; rewrite E in *.
  - right. apply IH. exact Hpos.
  - left. reflexivity.
Qed.

Context {PF : PyFloat} {CO : Collaborators}.

Lemma face_triples_range (ps : list piece) :
  Forall mesh_in_range (map fst ps) ->
  forall offset,
    Forall (fun i => offset + 1 <= i <= offset + total_vertices ps)
           (flat_map indices_of (face_triples offset ps)).
Proof.
  induction ps as [|p ps IH]; intros Hrange offset; simpl; [constructor|].
  inversion Hrange as [|m ms Hp Hps]; subst.
  pose proof (total_vertices_nonneg ps) as Htot.
  pose proof (len_nonneg (piece_vertices p)) as Hlen.
  rewrite flat_map_app. apply Forall_app. split.
  - unfold mesh_in_range in Hp. fold (piece_vertices p) (piece_triangles p) in Hp.
    induction Hp as [|t ts Ht _ IHt]; simpl; [constructor|].
    unfold global_face at 1. destruct (data t) as [[i j] k]. simpl.
    repeat constructor; try lia. exact IHt.
  - eapply Forall_impl; [|apply (IH Hps (offset + Py.len (piece_vertices p)))].
    simpl. intros i Hi. lia.
Qed.

Lemma last_vertex_index (p : piece) (offset : Z) :
  last_vertex_used (fst p) ->
  In (offset + Py.len (piece_vertices p))
     (flat_map indices_of (map (global_face offset) (piece_triangles p))).
Proof.
  unfold last_vertex_used. fold (piece_vertices p) (piece_triangles p).
  induction 1 as [t ts Ht|t ts _ IH]; simpl; apply in_or_app.
  - left. unfold global_face. destruct (data t) as [[i j] k]. simpl.
    destruct Ht as [->| [->| ->]]; [left|right; left|right; right; left]; lia.
  - right. exact IH.
Qed.

(** Every face index comes from a triangle of one of the pieces, moved by
    the vertices of the pieces before it. *)
Lemma face_index_origin (ps : list piece) :
  forall offset i,
    In i (flat_map indices_of (face_triples offset ps)) ->
    exists before p after t,
      ps = (before ++ p :: after)%list /\
      In t (piece_triangles p) /\
      In i (indices_of (global_face (offset + total_vertices before) t)).
Proof.
  induction ps as [|p ps IH]; intros offset i; simpl; [contradiction|].
  rewrite flat_map_app. intros Hin. apply in_app_or in Hin. destruct Hin as [Hin|Hin].
  - apply in_flat_map in Hin. destruct Hin as (x & Hx & Hi).
    apply in_map_iff in Hx. destruct Hx as (t & <- & Ht).
    exists [], p, ps, t. split; [reflexivity|]. split; [exact Ht|].
    change (total_vertices []) with 0. rewrite Z.add_0_r. exact Hi.
  - destruct (IH _ _ Hin) as (before & q & after & t & -> & Ht & Hi).
    exists (p :: before), q, after, t. split; [reflexivity|]. split; [exact Ht|].
    change (total_vertices (p :: before))
      with (Py.len (piece_vertices p) + total_vertices before).
    rewrite Z.add_assoc. exact Hi.
Qed.

(** A face index of a mesh that refers to its own vertices is the number
    of the vertices up to this mesh, and [rest] more, only when [rest] is
    0 and the corner is the last vertex of the mesh. *)
Lemma index_reaches_end (p : piece) (t : MeshTriangle) (offset rest : Z) :
  mesh_in_range (fst p) -> In t (piece_triangles p) -> 0 <= rest ->
  In (offset + Py.len (piece_vertices p) + rest) (indices_of (global_face offset t)) ->
  rest = 0 /\ last_vertex_used (fst p).
Proof.
  unfold mesh_in_range, last_vertex_used.
  fold (piece_vertices p) (piece_triangles p).
  intros Hp Ht Hrest Hin.
  rewrite Forall_forall in Hp. specialize (Hp t Ht).
  unfold global_face in Hin. destruct (data t) as [[i j] k] eqn:E.
  cbn [indices_of In] in Hin.
  split; [lia|].
  apply Exists_exists. exists t. split; [exact Ht|]. rewrite E. lia.
Qed.

End Indices.

(** ** The parser: claims *)

Section ParserTheorems.

Context {PF : PyFloat}.
Implicit Types (st : import_state) (carr content : string).

(** C6. Importing the text of three [v] lines and the line [f 1 2 3],
    each ended by a newline, yields exactly one Face (id 1) with exactly
    one Triangle (id 1) that refers to the vertices (0,0,0), (1,0,0) and
    (0,1,0) in that order, whatever [float] makes of the literals 0 and 1.
    In general, when the loop ends with a non-empty triangle buffer the
    result is the Faces built so far followed by one last Face made of
    that buffer; so a text whose last recognized line is an [f] line
    still yields the Face that this line belongs to. *)
Theorem import_single_triangle :
  (forall zero one : float,
      float_of_str "0" = Some zero -> float_of_str "1" = Some one ->
      import_obj ("v 0 0 0" ++ nl ++ "v 1 0 0" ++ nl ++ "v 0 1 0" ++ nl ++ "f 1 2 3" ++ nl)
      = inr [mkFace 1 [mkTriangle 1 [mkVertex 1 (zero, zero, zero);
                                     mkVertex 2 (one, zero, zero);
                                     mkVertex 3 (zero, one, zero)]]]) /\
  (forall content st,
      import_lines (lines_of content) = inr st ->
      triangles st <> [] ->
      import_obj content
      = inr (faces st ++ [mkFace (face_idx st) (triangles st)])%list) /\
  (forall content before fline after st refs,
      lines_of content = (before ++ fline :: after)%list ->
      import_lines before = inr st ->
      kind_of fline = FaceLine ->
      comprehension (resolve (vertices st)) (index_tokens fline) = inr refs ->
      Forall (fun l => recognized l = false) after ->
      import_obj content
      = inr (faces st ++ [mkFace (face_idx st)
                                 (triangles st ++ [mkTriangle (tri_idx st) refs])])%list).
Proof.
  split; [|split].
  - intros zero one H0 H1.
    destruct PF as [fl fos sof]; simpl in *.
    cbv. rewrite !H0, !H1. reflexivity.
  - intros content st Hst Hpending.
    unfold import_obj, import_obj_with. fold (lines_of content).
    rewrite Hst. simpl. unfold default_callback.
    rewrite final_faces_pending by assumption. reflexivity.
  - intros content before fline after st refs Hlines Hst Hf Hrefs Hafter.
    unfold import_obj, import_obj_with. fold (lines_of content).
    rewrite Hlines. unfold import_lines in *. rewrite for_each_app, Hst.
    simpl. rewrite (process_line_face st fline Hf).
    unfold face_line. fold (index_tokens fline). rewrite Hrefs. simpl.
    rewrite for_each_other by assumption. simpl.
    unfold default_callback, final_faces. simpl.
    destruct (triangles st); reflexivity.
Qed.


(** C1, as amended. Let [n] be the length of the vertex buffer when an
    [f] line is reached, all of whose index tokens are integers. If one
    of the tokens is above [n], or is [-n] or below, the import raises
    [IndexError] and returns nothing, whatever the lines after it and
    whatever the callback. (The tokens from [-n + 1] to [0] are not
    rejected.) *)
Theorem index_outside_buffer_raises :
  forall (R : Type) (callback_func : list Face -> R)
         content before fline after st tok t,
    lines_of content = (before ++ fline :: after)%list ->
    import_lines before = inr st ->
    kind_of fline = FaceLine ->
    Forall (fun s => exists i, Py.int s = inr i) (index_tokens fline) ->
    In tok (index_tokens fline) ->
    Py.int tok = inr t ->
    Py.len (vertices st) < t \/ t <= - Py.len (vertices st) ->
    import_obj_with callback_func content = inl IndexError.
Proof.
  intros R callback_func content before fline after st tok t
         Hlines Hst Hf Hints Hin Ht Hout.
  unfold import_obj_with. fold (lines_of content). rewrite Hlines.
  unfold import_lines in *. rewrite for_each_app, Hst. simpl.
  rewrite (process_line_face st fline Hf).
  unfold face_line. fold (index_tokens fline).
  rewrite (comprehension_resolve_outside (vertices st) _ tok t) by (assumption || lia).
  reflexivity.
Qed.

(** C7, as amended. Let [n] be the length of the vertex buffer. An [f]
    line whose index tokens are integers above [-n] and up to [n] raises
    no error and refers to vertices of the buffer only: the triangle it
    appends has for the token [t], when [t] is 0 or negative, the vertex
    at distance [-t] from the end of the buffer, so that the token 0 is
    the last vertex, and when [t] is 1 or more, the vertex at position
    [t]. A token [-n] or below raises [IndexError]. *)
Theorem index_from_the_end :
  (forall st fline,
      kind_of fline = FaceLine ->
      Forall (fun tok => exists t, Py.int tok = inr t /\
                                   - Py.len (vertices st) < t <= Py.len (vertices st))
             (index_tokens fline) ->
      exists refs,
        process_line st fline
        = inr (mkState true (vertices st)
                       (triangles st ++ [mkTriangle (tri_idx st) refs])
                       (faces st) (vert_idx st) (tri_idx st + 1) (face_idx st)) /\
        Forall2 (fun tok v =>
                   exists t, Py.int tok = inr t /\ In v (vertices st) /\
                             (t <= 0 ->
                              nth_error (rev (vertices st)) (Z.to_nat (- t)) = Some v) /\
                             (1 <= t ->
                              nth_error (vertices st) (Z.to_nat (t - 1)) = Some v))
                (index_tokens fline) refs) /\
  (forall (vs : list Vertex) tok t,
      Py.int tok = inr t -> t <= - Py.len vs -> resolve vs tok = inl IndexError).
Proof.
  split.
  - intros st fline Hf Htoks.
    rewrite (process_line_face st fline Hf).
    unfold face_line. fold (index_tokens fline).
    assert (exists refs,
               comprehension (resolve (vertices st)) (index_tokens fline) = inr refs /\
               Forall2 (fun tok v =>
                          exists t, Py.int tok = inr t /\ In v (vertices st) /\
                                    (t <= 0 ->
                                     nth_error (rev (vertices st)) (Z.to_nat (- t))
                                     = Some v) /\
                                    (1 <= t ->
                                     nth_error (vertices st) (Z.to_nat (t - 1)) = Some v))
                       (index_tokens fline) refs) as (refs & Hrefs & Hspec).
    { induction Htoks as [|tok toks (t & Ht & Hrange) _ (refs & Hrefs & Hspec)].
      - exists []. split; [reflexivity|constructor].
      - assert (exists v,
                   Py.getitem (vertices st) (t - 1) = inr v /\
                   (t <= 0 -> nth_error (rev (vertices st)) (Z.to_nat (- t)) = Some v) /\
                   (1 <= t -> nth_error (vertices st) (Z.to_nat (t - 1)) = Some v))
          as (v & Hv & Hback & Hfront).
        { destruct (Z.leb_spec t 0) as [Hneg|Hpos].
          - destruct (getitem_back (vertices st) (t - 1)) as (v & Hv & Hnth); [lia|].
            exists v. split; [exact Hv|]. split; [|lia].
            intros _. rewrite <- Hnth. f_equal. lia.
          - destruct (getitem_front (vertices st) (t - 1)) as (v & Hv & Hnth); [lia|].
            exists v. split; [exact Hv|]. split; [lia|].
            intros _. exact Hnth. }
        exists (v :: refs). split.
        + simpl. unfold resolve at 1. rewrite Ht. simpl. rewrite Hv. simpl.
          rewrite Hrefs. reflexivity.
        + constructor; [|exact Hspec].
          exists t. split; [exact Ht|]. split; [eapply getitem_In; exact Hv|].
          split; assumption. }
    exists refs. split; [|exact Hspec].
    rewrite Hrefs. reflexivity.
  - intros vs tok t Ht Hlow. unfold resolve. rewrite Ht. simpl.
    apply getitem_outside. lia.
Qed.

(** C5. A [v] line met while a face is open appends the Face made of the
    pending triangles under the next face id, empties both buffers and
    restarts both counters at 1, the vertex of the line getting id 1.
    Hence a text whose recognized lines are a vertex block, a face block,
    a vertex block and a face block imports to exactly two Faces in
    source order: the first is what the first pair of blocks imports to
    on its own, the second is what the second pair imports to on its own
    but for its id 2, and in each the triangles are numbered from 1 and
    refer to vertices numbered from 1 within their own block. *)
Theorem two_blocks_two_faces :
  (forall st vline vertex,
      on_face st = true ->
      kind_of vline = VertexLine ->
      Vertex_new (index_tokens vline) 1 = inr vertex ->
      process_line st vline
      = inr (mkState false [vertex] []
                     (faces st ++ [mkFace (face_idx st) (triangles st)])
                     2 1 (face_idx st + 1))) /\
  (forall content content1 content2 vblock1 fblock1 vblock2 fblock2 r1 r2,
      vblock1 <> [] -> fblock1 <> [] -> vblock2 <> [] -> fblock2 <> [] ->
      Forall (fun l => kind_of l = VertexLine) (vblock1 ++ vblock2) ->
      Forall (fun l => kind_of l = FaceLine) (fblock1 ++ fblock2) ->
      recognized_lines content1 = (vblock1 ++ fblock1)%list ->
      recognized_lines content2 = (vblock2 ++ fblock2)%list ->
      recognized_lines content = (vblock1 ++ fblock1 ++ vblock2 ++ fblock2)%list ->
      import_obj content1 = inr r1 ->
      import_obj content2 = inr r2 ->
      exists f1 f2,
        r1 = [f1] /\ r2 = [f2] /\
        import_obj content = inr [f1; mkFace 2 (face_triangles f2)] /\
        face_id f1 = 1 /\
        local_numbering (length vblock1) (length fblock1) f1 /\
        local_numbering (length vblock2) (length fblock2) f2).
Proof.
  split.
  - intros st vline vertex Hon K Hv.
    rewrite (process_line_vertex st vline K). unfold vertex_line. rewrite Hon.
    fold (index_tokens vline). simpl. rewrite Hv. reflexivity.
  - intros content content1 content2 vblock1 fblock1 vblock2 fblock2 r1 r2
           Hv1 Hf1 Hv2 Hf2 Hvs Hfs L1 L2 L I1 I2.
    apply Forall_app in Hvs; destruct Hvs as [Hvs1 Hvs2].
    apply Forall_app in Hfs; destruct Hfs as [Hfs1 Hfs2].
    destruct (import_block content1 vblock1 fblock1 r1 Hvs1 Hfs1 Hf1 L1 I1)
      as (s1 & Hrun1 & -> & Hon1 & Hfaces1 & Hidx1 & Hlv1 & Hlt1 & Hwf1).
    destruct (import_block content2 vblock2 fblock2 r2 Hvs2 Hfs2 Hf2 L2 I2)
      as (s2 & Hrun2 & -> & Hon2 & Hfaces2 & Hidx2 & Hlv2 & Hlt2 & Hwf2).
    exists (mkFace 1 (triangles s1)), (mkFace 1 (triangles s2)).
    split; [reflexivity|]. split; [reflexivity|].
    split; [|split; [reflexivity|split]].
    + unfold import_obj, import_obj_with. fold (lines_of content).
      rewrite import_lines_recognized, L.
      rewrite app_assoc, for_each_app, Hrun1. simpl.
      destruct vblock2 as [|vline vblock2]; [congruence|].
      inversion Hvs2 as [|? ? K _]; subst.
      change ((vline :: vblock2) ++ fblock2)%list
        with (vline :: (vblock2 ++ fblock2))%list in *.
      assert (close_face s1 = shift [mkFace 1 (triangles s1)] 1 initial_state) as Hclose.
      { unfold close_face, shift. rewrite Hfaces1, Hidx1. reflexivity. }
      change (for_each process_line (vline :: (vblock2 ++ fblock2))%list s1)
        with (bind (process_line s1 vline) (for_each process_line (vblock2 ++ fblock2))).
      rewrite (vertex_line_restart s1 vline Hon1 K), Hclose.
      change (bind (process_line (shift [mkFace 1 (triangles s1)] 1 initial_state) vline)
                   (for_each process_line (vblock2 ++ fblock2)))
        with (for_each process_line (vline :: (vblock2 ++ fblock2))%list
                       (shift [mkFace 1 (triangles s1)] 1 initial_state)).
      rewrite for_each_shift, Hrun2. simpl.
      unfold default_callback. rewrite final_faces_shift.
      rewrite final_faces_pending by (apply Hwf2, Hon2).
      rewrite Hfaces2, Hidx2. reflexivity.
    + rewrite <- Hlv1, <- Hlt1. apply block_numbering, Hwf1.
    + rewrite <- Hlv2, <- Hlt2. apply block_numbering, Hwf2.
Qed.

End ParserTheorems.

(** ** The serializer: claims *)

Section SerializerTheorems.

Context {PF : PyFloat} {CO : Collaborators}.
Implicit Types (surface : Geometry) (kwargs : export_kwargs).

(** C3, as amended. When the collaborators answer with the pieces [ps], the
    face block of the text is made of one line [f a b c] per mesh triangle
    (i, j, k), in order, with a = i + 1 + offset, b = j + 1 + offset and
    c = k + 1 + offset, the offset being 0 for the first surface and
    growing by the number of vertices of each surface; the vertex block
    has as many lines as the surfaces have vertices together. When every
    mesh refers to its own vertices only, every face index lies between 1
    and that total, and the largest face index is that total exactly when
    there is no vertex at all, or the last vertex of the last surface
    that has vertices is a corner of one of its triangles. *)
Theorem face_lines_use_running_offset :
  forall surface kwargs text (ps : list piece),
    Forall2 (tessellated (kwargs_get (kw_vertex_normals kwargs) false)) (iter surface) ps ->
    export_obj_str surface kwargs = inr text ->
    text = (header ++ join (v_block ps) ++ join (vn_block ps)
                   ++ join (vp_block (kwargs_get (kw_parametric_vertices kwargs) false) ps)
                   ++ join (map render_face (face_triples 0 ps)))%string /\
    Py.len (v_block ps) = total_vertices ps /\
    (Forall mesh_in_range (map fst ps) ->
     Forall (fun i => 1 <= i <= total_vertices ps)
            (flat_map indices_of (face_triples 0 ps)) /\
     (max_index (flat_map indices_of (face_triples 0 ps)) = total_vertices ps <->
      total_vertices ps = 0 \/
      exists before p after,
        ps = (before ++ p :: after)%list /\ total_vertices after = 0 /\
        last_vertex_used (fst p))).
Proof.
  intros surface kwargs text ps Hps Hexp.
  destruct (export_checks surface kwargs text Hexp) as (Hdim & Hsp & _).
  rewrite (export_text surface kwargs ps Hdim Hsp Hps) in Hexp.
  inversion Hexp; subst text; clear Hexp.
  split; [reflexivity|]. split; [apply v_block_len|].
  intros Hrange.
  pose proof (face_triples_range ps Hrange 0) as Hall. simpl in Hall.
  split; [exact Hall|].
  assert (max_index (flat_map indices_of (face_triples 0 ps)) <= total_vertices ps)
    as Hupper.
  { apply max_index_upper; [apply total_vertices_nonneg|].
    eapply Forall_impl; [|exact Hall]. simpl. intros i Hi. lia. }
  split.
  - intros Hmax.
    destruct (Z.eq_dec (total_vertices ps) 0) as [Hzero|Hsome]; [left; exact Hzero|right].
    pose proof (total_vertices_nonneg ps) as Hnonneg.
    assert (In (total_vertices ps) (flat_map indices_of (face_triples 0 ps))) as Hin.
    { rewrite <- Hmax. apply max_index_reached. lia. }
    destruct (face_index_origin ps 0 _ Hin) as (before & p & after & t & -> & Ht & Hi).
    exists before, p, after. split; [reflexivity|].
    rewrite map_app in Hrange. apply Forall_app in Hrange. destruct Hrange as [_ Hrange].
    inversion Hrange as [|m ms Hp _]; subst.
    apply (index_reaches_end p t (0 + total_vertices before) (total_vertices after) Hp Ht
                             (total_vertices_nonneg after)).
    rewrite total_vertices_app in Hi.
    change (total_vertices (p :: after))
      with (Py.len (piece_vertices p) + total_vertices after) in Hi.
    replace (0 + total_vertices before + Py.len (piece_vertices p) + total_vertices after)
      with (total_vertices before + (Py.len (piece_vertices p) + total_vertices after))
      by lia.
    exact Hi.
  - intros [Hzero|(before & p & after & -> & Hafter & Hlast)].
    + pose proof (max_index_nonneg (flat_map indices_of (face_triples 0 ps))). lia.
    + apply Z.le_antisymm; [exact Hupper|].
      apply max_index_In.
      rewrite face_triples_app, flat_map_app, total_vertices_app. apply in_or_app. right.
      change (total_vertices (p :: after))
        with (Py.len (piece_vertices p) + total_vertices after).
      rewrite Hafter, Z.add_0_r.
      cbn [face_triples]. rewrite flat_map_app. apply in_or_app. left.
      apply (last_vertex_index p (0 + total_vertices before) Hlast).
Qed.

(** C4. The text of every export that returns is, in this order: the
    generator comment line, the [v] lines of all surfaces, the [vn] lines
    of all surfaces, the [vp] lines of all surfaces, the [f] lines of all
    surfaces; [ps] are the meshes and normals the collaborators gave,
    surface by surface. *)
Theorem blocks_are_grouped :
  forall surface kwargs text,
    export_obj_str surface kwargs = inr text ->
    exists ps : list piece,
      Forall2 (tessellated (kwargs_get (kw_vertex_normals kwargs) false)) (iter surface) ps /\
      text = (header ++ join (v_block ps) ++ join (vn_block ps)
                     ++ join (vp_block (kwargs_get (kw_parametric_vertices kwargs) false) ps)
                     ++ join (map render_face (face_triples 0 ps)))%string.
Proof.
  intros surface kwargs text Hexp.
  destruct (export_checks surface kwargs text Hexp) as (Hdim & Hsp & ps & Hps).
  exists ps. split; [exact Hps|].
  rewrite (export_text surface kwargs ps Hdim Hsp Hps) in Hexp.
  inversion Hexp; reflexivity.
Qed.

(** C2 fails on the code: the tessellator is called without a spacing,
    so that two calls that differ only in a valid [vertex_spacing] have
    the same outcome. *)
Theorem vertex_spacing_is_not_passed :
  forall surface kwargs s1 s2,
    1 <= s1 -> 1 <= s2 ->
    export_obj_str surface (with_vertex_spacing kwargs s1)
    = export_obj_str surface (with_vertex_spacing kwargs s2).
Proof.
  intros surface kwargs s1 s2 H1 H2. unfold export_obj_str, with_vertex_spacing. simpl.
  replace (s1 <? 1) with false by (symmetry; apply Z.ltb_ge; exact H1).
  replace (s2 <? 1) with false by (symmetry; apply Z.ltb_ge; exact H2).
  reflexivity.
Qed.

(** C9. A call with a [vertex_spacing] below 1 raises [GeomdlError], the
    module's validation error, whatever the surfaces and whatever the
    collaborators would answer or raise: the outcome is decided by the
    two checks at the head of the function, before the loop over the
    surfaces. *)
Theorem small_vertex_spacing_is_rejected :
  forall surface kwargs s,
    kw_vertex_spacing kwargs = Some s -> s < 1 ->
    export_obj_str surface kwargs
    = inl (GeomdlError (if pdimension surface =? 2
                        then "Vertex spacing should be bigger than zero"
                        else "Can only export surfaces")).
Proof.
  intros surface kwargs s Hs Hlt. unfold export_obj_str. rewrite Hs. simpl.
  destruct (pdimension surface =? 2); simpl; [|reflexivity].
  replace (s <? 1) with true by (symmetry; apply Z.ltb_lt; exact Hlt).
  reflexivity.
Qed.

(** C10, as amended. A call on a geometry whose parametric dimension is
    not 2 raises [GeomdlError] with the message [Can only export
    surfaces], whatever the options, the surfaces and the
    collaborators. *)
Theorem non_surface_is_rejected :
  forall surface kwargs,
    pdimension surface <> 2 ->
    export_obj_str surface kwargs = inl (GeomdlError "Can only export surfaces").
Proof.
  intros surface kwargs Hdim. unfold export_obj_str.
  apply Z.eqb_neq in Hdim. rewrite Hdim. reflexivity.
Qed.

End SerializerTheorems.

(** ** The claims on the sample instance *)

Section Instances.

#[local] Existing Instance Sample.floats.
#[local] Existing Instance Sample.collaborators.

(** C8 fails on the code: a line is cut at every single space and at
    nothing else. An [f] line whose tokens are separated by tabs is one
    token, which no branch recognizes, so the line is skipped in every
    state; an [f] line with two spaces in a row has an empty token, on
    which [int] raises. The text with the face line [f 1 2 3] imports to
    one Face, with tabs in place of the spaces to no Face, and with a
    doubled space to [ValueError]. *)
Theorem separators_other_than_one_space :
  (forall (PF : PyFloat) (st : import_state),
      process_line st ("f" ++ Sample.tab ++ "1" ++ Sample.tab ++ "2" ++ Sample.tab ++ "3")
      = ret st) /\
  (forall (PF : PyFloat) (st : import_state),
      exists e, process_line st "f 1  2 3" = inl e) /\
  import_obj (Sample.vertex_block ++ "f 1 2 3" ++ nl) = inr [Sample.triangle_face] /\
  import_obj (Sample.vertex_block
                ++ "f" ++ Sample.tab ++ "1" ++ Sample.tab ++ "2" ++ Sample.tab ++ "3" ++ nl)
  = inr [] /\
  import_obj (Sample.vertex_block ++ "f 1  2 3" ++ nl) = inl ValueError.
Proof.
  split; [|split; [|split; [|split]]]; [| |reflexivity..].
  - intros PF st. apply process_line_other. reflexivity.
  - intros PF st.
    rewrite (process_line_face st "f 1  2 3" eq_refl).
    unfold face_line.
    change (tl (tokenize "f 1  2 3")) with ["1"; ""; "2"; "3"].
    simpl. unfold resolve at 1.
    change (Py.int "1") with (@inr exn Z 1). simpl.
    destruct (Py.getitem (vertices st) 0); simpl; eexists; reflexivity.
Qed.

Lemma import_single_triangle_sample :
  import_obj Sample.triangle_text = inr [Sample.triangle_face].
Proof.
  exact (proj1 (import_single_triangle (PF := Sample.floats)) 0 1 eq_refl eq_refl).
Defined.

(** The token 0 is outside the bounds 1..3 of the buffer, and the import
    returns a Face whose triangle has the last vertex for its first
    corner. *)
Lemma index_zero_is_accepted :
  import_obj (Sample.vertex_block ++ "f 0 1 2" ++ nl)
  = inr [mkFace 1 [mkTriangle 1 [Sample.third; Sample.first; Sample.second]]].
Proof. reflexivity. Qed.

Lemma index_outside_buffer_raises_sample :
  import_obj_with default_callback (Sample.vertex_block ++ "f 1 2 4" ++ nl)
  = inl IndexError.
Proof.
  apply (index_outside_buffer_raises (PF := Sample.floats) _ default_callback _
           ["v 0 0 0"; "v 1 0 0"; "v 0 1 0"] "f 1 2 4" [""]
           Sample.three_vertices "4" 4).
  - reflexivity.
  - reflexivity.
  - reflexivity.
  - repeat constructor; eexists; reflexivity.
  - right. right. left. reflexivity.
  - reflexivity.
  - left. reflexivity.
Defined.

(** The buffer holds three vertices and the negative token -3 raises. *)
Lemma negative_index_may_raise :
  import_obj (Sample.vertex_block ++ "f -3 1 2" ++ nl) = inl IndexError.
Proof. reflexivity. Qed.

Lemma index_from_the_end_sample :
  exists refs,
    process_line Sample.three_vertices "f 0 1 -2"
    = inr (mkState true (vertices Sample.three_vertices)
                   [mkTriangle 1 refs] [] 4 2 1) /\
    Forall2 (fun tok v =>
               exists t, Py.int tok = inr t /\ In v (vertices Sample.three_vertices) /\
                         (t <= 0 ->
                          nth_error [Sample.third; Sample.second; Sample.first]
                                    (Z.to_nat (- t)) = Some v) /\
                         (1 <= t ->
                          nth_error (vertices Sample.three_vertices) (Z.to_nat (t - 1))
                          = Some v))
            ["0"; "1"; "-2"] refs.
Proof.
  apply (proj1 (index_from_the_end (PF := Sample.floats))
               Sample.three_vertices "f 0 1 -2").
  - reflexivity.
  - repeat constructor.
    + exists 0. split; [reflexivity|]. split; [reflexivity|discriminate].
    + exists 1. split; [reflexivity|]. split; [reflexivity|discriminate].
    + exists (-2). split; [reflexivity|]. split; [reflexivity|discriminate].
Defined.

Lemma two_blocks_two_faces_sample :
  import_obj (Sample.triangle_text ++ Sample.second_text)
  = inr [Sample.triangle_face; mkFace 2 (face_triangles Sample.second_face)] /\
  local_numbering 3 1 Sample.triangle_face /\
  local_numbering 3 2 Sample.second_face.
Proof.
  destruct (proj2 (two_blocks_two_faces (PF := Sample.floats))
              (Sample.triangle_text ++ Sample.second_text)
              Sample.triangle_text Sample.second_text
              ["v 0 0 0"; "v 1 0 0"; "v 0 1 0"] ["f 1 2 3"]
              ["v 5 5 5"; "v 6 6 6"; "v 7 7 7"] ["f 3 2 1"; "f 1 2 3"]
              [Sample.triangle_face] [Sample.second_face]
              ltac:(discriminate) ltac:(discriminate)
              ltac:(discriminate) ltac:(discriminate)
              ltac:(repeat constructor) ltac:(repeat constructor)
              eq_refl eq_refl eq_refl eq_refl eq_refl)
    as (f1 & f2 & E1 & E2 & Hboth & _ & N1 & N2).
  injection E1 as <-. injection E2 as <-.
  split; [exact Hboth|]. split; assumption.
Defined.

Lemma face_lines_use_running_offset_sample :
  Sample.two_quads_plain_text
  = (header ++ join (v_block Sample.two_quads)
            ++ join (map render_face [(1, 2, 3); (2, 4, 3); (5, 6, 7); (6, 8, 7)]))%string /\
  Forall (fun i => 1 <= i <= 8) [1; 2; 3; 2; 4; 3; 5; 6; 7; 6; 8; 7] /\
  max_index [1; 2; 3; 2; 4; 3; 5; 6; 7; 6; 8; 7] = 8.
Proof.
  destruct (face_lines_use_running_offset (PF := Sample.floats) (CO := Sample.collaborators)
              Sample.two_surfaces Sample.no_kwargs Sample.two_quads_plain_text
              Sample.two_quads
              ltac:(repeat constructor) eq_refl)
    as (Htext & _ & Hrange).
  split; [exact Htext|].
  assert (Forall (mesh_in_range (PF := Sample.floats))
                 (map fst Sample.two_quads)) as Hmeshes.
  { repeat constructor; simpl; lia. }
  destruct (Hrange Hmeshes) as [Hall Hmax].
  split; [exact Hall|].
  apply (proj2 Hmax). right.
  exists [(Sample.quad, [])], (Sample.quad, []), [].
  split; [reflexivity|]. split; [reflexivity|].
  constructor 2. constructor 1. simpl. lia.
Defined.

(** Two exports that return. The mesh of the first has four vertices and
    the one triangle (0, 1, 2): the text has four [v] lines and the face
    line [f 1 2 3], the largest face index is 3 and the vertices are 4.
    The mesh of the second has three vertices and the triangle (0, 1, 5):
    the text has three [v] lines and the face line [f 1 2 6], which
    refers to no vertex of the text. *)
Lemma largest_index_is_not_the_total :
  (export_obj_str (CO := Demo.sparse_collaborators) Demo.sparse_surface Sample.no_kwargs
   = inr Demo.sparse_text /\
   Forall2 (tessellated (CO := Demo.sparse_collaborators) false)
           (iter Demo.sparse_surface) Demo.sparse_pieces /\
   max_index (flat_map indices_of (face_triples 0 Demo.sparse_pieces)) = 3 /\
   total_vertices Demo.sparse_pieces = 4) /\
  (export_obj_str (CO := Demo.dangling_collaborators) Demo.dangling_surface Sample.no_kwargs
   = inr Demo.dangling_text /\
   Forall2 (tessellated (CO := Demo.dangling_collaborators) false)
           (iter Demo.dangling_surface) Demo.dangling_pieces /\
   max_index (flat_map indices_of (face_triples 0 Demo.dangling_pieces)) = 6 /\
   total_vertices Demo.dangling_pieces = 3).
Proof.
  split.
  - split; [reflexivity|]. split; [repeat constructor|]. split; reflexivity.
  - split; [reflexivity|]. split; [repeat constructor|]. split; reflexivity.
Qed.

Lemma blocks_are_grouped_sample :
  exists ps,
    Forall2 (tessellated true) (iter Sample.two_surfaces) ps /\
    Sample.two_quads_text
    = (header ++ join (v_block ps) ++ join (vn_block ps) ++ join (vp_block true ps)
              ++ join (map render_face (face_triples 0 ps)))%string.
Proof.
  exact (blocks_are_grouped (PF := Sample.floats) (CO := Sample.collaborators)
           Sample.two_surfaces Sample.all_kwargs Sample.two_quads_text eq_refl).
Defined.

(** The sample tessellator answers a spacing of 2 with another mesh than
    a spacing of 1, and the export with [vertex_spacing] 2 is the export
    with [vertex_spacing] 1. *)
Lemma vertex_spacing_is_not_passed_sample :
  Sample.tessellate tt 2 2 (Some 2) <> Sample.tessellate tt 2 2 (Some 1) /\
  export_obj_str Sample.one_surface (with_vertex_spacing Sample.no_kwargs 1)
  = export_obj_str Sample.one_surface (with_vertex_spacing Sample.no_kwargs 2).
Proof.
  split; [discriminate|].
  apply (vertex_spacing_is_not_passed (PF := Sample.floats) (CO := Sample.collaborators)
           Sample.one_surface Sample.no_kwargs 1 2); lia.
Defined.

(** The tessellator of this instance raises; the call with a spacing of 0
    raises the validation error and the call with a spacing of 1 raises
    what the tessellator raises. *)
Lemma small_vertex_spacing_is_rejected_sample :
  export_obj_str Sample.untessellable (mkKwargs (Some 0) None None)
  = inl (GeomdlError "Vertex spacing should be bigger than zero") /\
  export_obj_str Sample.untessellable (mkKwargs (Some 1) None None) = inl TypeError.
Proof.
  split; [|reflexivity].
  apply (small_vertex_spacing_is_rejected (PF := Sample.floats)
           (CO := Sample.broken_collaborators)
           Sample.untessellable (mkKwargs (Some 0) None None) 0); [reflexivity|lia].
Defined.

(** The message the code raises with is not [surfaces only]. *)
Lemma message_is_not_surfaces_only :
  export_obj_str Sample.a_curve Sample.no_kwargs
  <> inl (GeomdlError "surfaces only").
Proof. discriminate. Qed.

Lemma non_surface_is_rejected_sample :
  export_obj_str Sample.a_curve Sample.no_kwargs
  = inl (GeomdlError "Can only export surfaces").
Proof.
  apply (non_surface_is_rejected (PF := Sample.floats) (CO := Sample.collaborators)
           Sample.a_curve Sample.no_kwargs).
  discriminate.
Defined.

End Instances.

(** * Further properties *)

(** ** Strings and numerals *)

Section Strings.

Implicit Types (s t : string) (c : ascii).

Lemma string_app_nil_r s : (s ++ "")%string = s.
Proof. induction s as [|c s IH]; simpl; [reflexivity|rewrite IH; reflexivity]. Qed.

Lemma all_chars_app p s t : all_chars p (s ++ t) = all_chars p s && all_chars p t.
Proof.
  induction s as [|c s IH]; simpl; [reflexivity|].
  rewrite IH, andb_assoc. reflexivity.
Qed.

Lemma lstrip_blank_app s t : blank s = true -> Py.lstrip (s ++ t) = Py.lstrip t.
Proof.
  unfold blank. induction s as [|c s IH]; simpl; [reflexivity|].
  intros Hb. apply andb_prop in Hb. destruct Hb as [Hc Hs].
  rewrite Hc. apply IH, Hs.
Qed.

Lemma lstrip_blank s : blank s = true -> Py.lstrip s = "".
Proof.
  intros Hb. rewrite <- (string_app_nil_r s). rewrite lstrip_blank_app by exact Hb.
  reflexivity.
Qed.

Lemma rstrip_blank s : blank s = true -> Py.rstrip s = "".
Proof.
  unfold blank. induction s as [|c s IH]; simpl; [reflexivity|].
  intros Hb. apply andb_prop in Hb. destruct Hb as [Hc Hs].
  rewrite (IH Hs), Hc. reflexivity.
Qed.

Lemma rstrip_app_blank s t : blank t = true -> Py.rstrip (s ++ t) = Py.rstrip s.
Proof.
  intros Hb. induction s as [|c s IH]; simpl.
  - apply rstrip_blank, Hb.
  - rewrite IH. reflexivity.
Qed.

Lemma rstrip_cons c s : Py.isspace c = false -> Py.rstrip (String c s) = String c (Py.rstrip s).
Proof. intros Hc. simpl. rewrite Hc. destruct (Py.rstrip s); reflexivity. Qed.

Lemma rstrip_app_kept s t : Py.rstrip t <> "" -> Py.rstrip (s ++ t) = (s ++ Py.rstrip t)%string.
Proof.
  intros Ht. induction s as [|c s IH]; simpl; [reflexivity|].
  rewrite IH. destruct (s ++ Py.rstrip t)%string eqn:E; [|reflexivity].
  destruct s; simpl in E; [congruence|discriminate].
Qed.

Lemma rstrip_no_space s :
  all_chars (fun c => negb (Py.isspace c)) s = true -> Py.rstrip s = s.
Proof.
  induction s as [|c s IH]; [reflexivity|]. simpl all_chars.
  intros Hb. apply andb_prop in Hb. destruct Hb as [Hc Hs].
  apply negb_true_iff in Hc. rewrite rstrip_cons by exact Hc.
  rewrite (IH Hs). reflexivity.
Qed.

Lemma lstrip_cons c s : Py.isspace c = false -> Py.lstrip (String c s) = String c s.
Proof. intros Hc. simpl. rewrite Hc. reflexivity. Qed.

Lemma lstrip_no_space s :
  all_chars (fun c => negb (Py.isspace c)) s = true -> Py.lstrip s = s.
Proof.
  destruct s as [|c s]; [reflexivity|]. simpl all_chars.
  intros Hb. apply andb_prop in Hb. destruct Hb as [Hc _].
  apply negb_true_iff in Hc. apply lstrip_cons, Hc.
Qed.

Lemma strip_no_space s :
  all_chars (fun c => negb (Py.isspace c)) s = true -> Py.strip s = s.
Proof.
  intros Hs. unfold Py.strip. rewrite lstrip_no_space, rstrip_no_space by exact Hs.
  reflexivity.
Qed.

Lemma solid_no_space s : solid s = true -> all_chars (fun c => negb (Py.isspace c)) s = true.
Proof. unfold solid. intros H. apply andb_prop in H. apply H. Qed.

Lemma solid_nonempty s : solid s = true -> s <> "".
Proof.
  unfold solid. intros H. apply andb_prop in H. destruct H as [H _].
  apply negb_true_iff, String.eqb_neq in H. exact H.
Qed.

Lemma strip_solid s : solid s = true -> Py.strip s = s.
Proof. intros H. apply strip_no_space, solid_no_space, H. Qed.

(** Padding a line with blanks on either side does not change its strip. *)
Lemma lstrip_app_r s t :
  blank t = true ->
  Py.rstrip (Py.lstrip (s ++ t)) = Py.rstrip (Py.lstrip s).
Proof.
  intros Ht. induction s as [|c s IH]; simpl.
  - rewrite (lstrip_blank t Ht). reflexivity.
  - destruct (Py.isspace c); [exact IH|].
    change (String c (s ++ t)) with (String c s ++ t)%string.
    apply rstrip_app_blank, Ht.
Qed.

Lemma strip_padded a s b :
  blank a = true -> blank b = true -> Py.strip (a ++ s ++ b) = Py.strip s.
Proof.
  intros Ha Hb. unfold Py.strip. rewrite lstrip_blank_app by exact Ha.
  apply lstrip_app_r, Hb.
Qed.

End Strings.

Section Split.

Implicit Types (s t : string) (c sep : ascii).

Lemma split_not_nil sep s : Py.split sep s <> [].
Proof.
  destruct s as [|c s]; simpl; [discriminate|].
  destruct (Ascii.eqb c sep); [discriminate|].
  destruct (Py.split sep s); discriminate.
Qed.

Lemma split_app_sep sep s t :
  all_chars (fun c => negb (Ascii.eqb c sep)) s = true ->
  Py.split sep (s ++ String sep t) = s :: Py.split sep t.
Proof.
  induction s as [|c s IH]; simpl.
  - intros _. rewrite Ascii.eqb_refl. reflexivity.
  - intros Hb. apply andb_prop in Hb. destruct Hb as [Hc Hs].
    apply negb_true_iff in Hc. rewrite Hc, (IH Hs). reflexivity.
Qed.

Lemma split_no_sep sep s :
  all_chars (fun c => negb (Ascii.eqb c sep)) s = true -> Py.split sep s = [s].
Proof.
  induction s as [|c s IH]; simpl; [reflexivity|].
  intros Hb. apply andb_prop in Hb. destruct Hb as [Hc Hs].
  apply negb_true_iff in Hc. rewrite Hc, (IH Hs). reflexivity.
Qed.

Lemma all_chars_impl (p q : ascii -> bool) s :
  (forall c, p c = true -> q c = true) -> all_chars p s = true -> all_chars q s = true.
Proof.
  intros Hpq. induction s as [|c s IH]; simpl; [reflexivity|].
  intros Hb. apply andb_prop in Hb. destruct Hb as [Hc Hs].
  rewrite (Hpq c Hc), (IH Hs). reflexivity.
Qed.

Lemma no_space_no_sep sep s :
  Py.isspace sep = true ->
  all_chars (fun c => negb (Py.isspace c)) s = true ->
  all_chars (fun c => negb (Ascii.eqb c sep)) s = true.
Proof.
  intros Hsep. apply all_chars_impl. intros c Hc.
  apply negb_true_iff. apply negb_true_iff in Hc.
  destruct (Ascii.eqb_spec c sep) as [->|]; [congruence|reflexivity].
Qed.

End Split.

Section Numerals.

Lemma digits_no_space (d : Decimal.uint) :
  all_chars (fun c => negb (Py.isspace c)) (NilEmpty.string_of_uint d) = true.
Proof. induction d; simpl; try rewrite IHd; reflexivity. Qed.

Lemma digitpart_cons (c : ascii) (s : string) (acc k : Z) (seen : bool) :
  Py.digit c = Some k ->
  Py.digitpart (String c s) acc seen = Py.digitpart s (10 * acc + k) true.
Proof. intros Hc. cbn [Py.digitpart]. rewrite Hc. reflexivity. Qed.

Lemma digitpart_acc (d : Decimal.uint) (acc : positive) :
  Py.digitpart (NilEmpty.string_of_uint d) (Z.pos acc) true
  = Some (Z.pos (Pos.of_uint_acc d acc)).
Proof.
  revert acc; induction d; intros acc;
    cbn [NilEmpty.string_of_uint Pos.of_uint_acc]; [reflexivity|..];
    erewrite digitpart_cons by reflexivity;
    rewrite <- IHd; f_equal;
    match goal with
    | |- context [Z.of_N (N_of_ascii ?c) - 48] =>
        let v := eval vm_compute in (Z.of_N (N_of_ascii c) - 48) in
        change (Z.of_N (N_of_ascii c) - 48) with v
    end; lia.
Qed.

Lemma digitpart_zero (d : Decimal.uint) (seen : bool) :
  d <> Decimal.Nil \/ seen = true ->
  Py.digitpart (NilEmpty.string_of_uint d) 0 seen = Some (Z.of_N (Pos.of_uint d)).
Proof.
  revert seen; induction d; intros seen Hd;
    cbn [NilEmpty.string_of_uint Pos.of_uint];
    try (erewrite digitpart_cons by reflexivity).
  - destruct Hd as [Hd| ->]; [congruence|reflexivity].
  - apply IHd. right. reflexivity.
  - apply (digitpart_acc d 1).
  - apply (digitpart_acc d 2).
  - apply (digitpart_acc d 3).
  - apply (digitpart_acc d 4).
  - apply (digitpart_acc d 5).
  - apply (digitpart_acc d 6).
  - apply (digitpart_acc d 7).
  - apply (digitpart_acc d 8).
  - apply (digitpart_acc d 9).
Qed.

Lemma to_uint_not_nil (p : positive) : Pos.to_uint p <> Decimal.Nil.
Proof. apply DecimalPos.Unsigned.to_uint_nonnil. Qed.

Lemma digitpart_positive (p : positive) :
  Py.digitpart (NilEmpty.string_of_uint (Pos.to_uint p)) 0 false = Some (Z.pos p).
Proof.
  rewrite digitpart_zero by (left; apply to_uint_not_nil).
  rewrite DecimalPos.Unsigned.of_to. reflexivity.
Qed.

Lemma string_of_uint_positive (p : positive) :
  NilZero.string_of_uint (Pos.to_uint p) = NilEmpty.string_of_uint (Pos.to_uint p).
Proof.
  pose proof (to_uint_not_nil p). destruct (Pos.to_uint p); [congruence|reflexivity..].
Qed.

Lemma str_no_space (n : Z) : all_chars (fun c => negb (Py.isspace c)) (Py.str n) = true.
Proof.
  unfold Py.str. destruct n as [|p|p]; simpl; [reflexivity|..];
    rewrite string_of_uint_positive; apply digits_no_space.
Qed.

Lemma str_solid (n : Z) : solid (Py.str n) = true.
Proof.
  unfold solid. rewrite str_no_space, andb_true_r.
  apply negb_true_iff, String.eqb_neq.
  unfold Py.str. destruct n as [|p|p]; simpl; [discriminate| |discriminate].
  rewrite string_of_uint_positive.
  pose proof (to_uint_not_nil p). destruct (Pos.to_uint p); simpl; congruence.
Qed.

(** [int(str(n)) == n] *)
Lemma int_str (n : Z) : Py.int (Py.str n) = inr n.
Proof.
  unfold Py.int. rewrite (strip_no_space _ (str_no_space n)).
  unfold Py.str. destruct n as [|p|p]; simpl; [reflexivity|..];
    rewrite string_of_uint_positive.
  - pose proof (digitpart_positive p) as H.
    pose proof (to_uint_not_nil p) as Hnil.
    destruct (Pos.to_uint p); [congruence|..]; simpl in *; rewrite H; reflexivity.
  - rewrite digitpart_positive. reflexivity.
Qed.

End Numerals.

(** ** The parser *)

Section ParserLines.

Context {PF : PyFloat}.
Implicit Types (st : import_state) (carr content : string).

Lemma tokenize_padded l l' : padded l l' -> tokenize l' = tokenize l.
Proof.
  intros (a & b & Ha & Hb & ->). unfold tokenize.
  rewrite strip_padded by assumption. reflexivity.
Qed.

Lemma process_line_tokens st l l' :
  tokenize l' = tokenize l -> process_line st l' = process_line st l.
Proof. intros E. unfold process_line. rewrite E. reflexivity. Qed.

Lemma for_each_padded (ls ls' : list string) :
  Forall2 padded ls ls' ->
  forall st, for_each process_line ls' st = for_each process_line ls st.
Proof.
  induction 1 as [|l l' ls ls' Hl _ IH]; intros st; simpl; [reflexivity|].
  rewrite (process_line_tokens st l l' (tokenize_padded l l' Hl)).
  destruct (process_line st l); simpl; [reflexivity|apply IH].
Qed.

(** Whitespace before and after a line does not count: two texts whose
    lines differ by such whitespace only (indentation, trailing blanks,
    the carriage returns of CRLF line ends) import to the same result, or
    raise the same exception. *)
Theorem padding_is_ignored :
  forall (R : Type) (callback_func : list Face -> R) content content',
    Forall2 padded (lines_of content) (lines_of content') ->
    import_obj_with callback_func content' = import_obj_with callback_func content.
Proof.
  intros R callback_func content content' Hpad.
  unfold import_obj_with, import_lines. fold (lines_of content) (lines_of content').
  rewrite (for_each_padded _ _ Hpad). reflexivity.
Qed.

(** Lines whose first token is neither [v] nor [f] (comments, [vn], [vt],
    [g], blank lines) have no effect: two texts with the same [v] and [f]
    lines in the same order import to the same result, or raise the same
    exception. *)
Theorem other_lines_are_inert :
  forall (R : Type) (callback_func : list Face -> R) content content',
    recognized_lines content = recognized_lines content' ->
    import_obj_with callback_func content = import_obj_with callback_func content'.
Proof.
  intros R callback_func content content' E.
  unfold import_obj_with. fold (lines_of content) (lines_of content').
  rewrite !import_lines_recognized, E. reflexivity.
Qed.

Lemma nth_error_ids_from (first : Z) (count k : nat) :
  (k < count)%nat -> nth_error (ids_from first count) k = Some (first + Z.of_nat k).
Proof.
  revert first k; induction count as [|n IH]; intros first k Hk; [lia|].
  destruct k as [|k]; simpl.
  - f_equal. lia.
  - rewrite IH by lia. f_equal. lia.
Qed.

Lemma numbered_nth (vs : list Vertex) (k : nat) v :
  numbered vs -> nth_error vs k = Some v -> vertex_id v = Z.of_nat k + 1.
Proof.
  unfold numbered. intros Hn Hv.
  assert (k < length vs)%nat as Hk by (apply nth_error_Some; congruence).
  pose proof (map_nth_error vertex_id k vs Hv) as Hm.
  rewrite Hn, nth_error_ids_from in Hm by exact Hk.
  assert (Some (vertex_id v) = Some (1 + Z.of_nat k)) as E by (rewrite <- Hm; reflexivity).
  apply (f_equal (fun o => match o with Some z => z | None => 0 end)) in E.
  cbv beta iota in E. lia.
Qed.

(** In a state that the loop reaches, an [f] line whose index tokens are
    integers between 1 and the length of the vertex buffer raises nothing:
    it appends one triangle, numbered by the triangle counter, whose
    corners are, token by token, the vertex at that position of the
    buffer, which is the vertex with that identifier. *)
Theorem index_in_range_resolves :
  forall before fline st,
    import_lines before = inr st ->
    kind_of fline = FaceLine ->
    Forall (fun tok => exists t, Py.int tok = inr t /\ 1 <= t <= Py.len (vertices st))
           (index_tokens fline) ->
    exists refs,
      process_line st fline
      = inr (mkState true (vertices st)
                     (triangles st ++ [mkTriangle (tri_idx st) refs])
                     (faces st) (vert_idx st) (tri_idx st + 1) (face_idx st)) /\
      Forall2 (fun tok v =>
                 exists t, Py.int tok = inr t /\ vertex_id v = t /\
                           nth_error (vertices st) (Z.to_nat (t - 1)) = Some v)
              (index_tokens fline) refs.
Proof.
  intros before fline st Hst Hf Htoks.
  pose proof (for_each_well_formed _ _ _ well_formed_initial Hst) as Hwf.
  destruct Hwf as (_ & _ & _ & _ & Hnum & _).
  rewrite (process_line_face st fline Hf).
  unfold face_line. fold (index_tokens fline).
  assert (exists refs,
             comprehension (resolve (vertices st)) (index_tokens fline) = inr refs /\
             Forall2 (fun tok v =>
                        exists t, Py.int tok = inr t /\ vertex_id v = t /\
                                  nth_error (vertices st) (Z.to_nat (t - 1)) = Some v)
                     (index_tokens fline) refs) as (refs & Hrefs & Hspec).
  { induction Htoks as [|tok toks (t & Ht & Hrange) _ (refs & Hrefs & Hspec)].
    - exists []. split; [reflexivity|constructor].
    - destruct (getitem_front (vertices st) (t - 1)) as (v & Hv & Hnth); [lia|].
      exists (v :: refs). split.
      + simpl. unfold resolve at 1. rewrite Ht. simpl. rewrite Hv. simpl.
        rewrite Hrefs. reflexivity.
      + constructor; [|exact Hspec].
        exists t. split; [exact Ht|]. split; [|exact Hnth].
        rewrite (numbered_nth _ _ _ Hnum Hnth). lia. }
  exists refs. split; [|exact Hspec].
  rewrite Hrefs. reflexivity.
Qed.

Lemma int_exn (s : string) e : Py.int s = inl e -> e = ValueError.
Proof.
  unfold Py.int.
  match goal with |- match ?p with _ => _ end = _ -> _ => destruct p end;
    intros E; inversion E; reflexivity.
Qed.

(** An [f] line with an index token that is no integer, the tokens before
    it referring to vertices of the buffer, makes the import raise
    [ValueError]; so do the face lines of the form [f 1/1/1 2/2/2 3/3/3]. *)
Theorem index_not_an_integer_raises :
  forall (R : Type) (callback_func : list Face -> R)
         content before fline after st good bad rest,
    lines_of content = (before ++ fline :: after)%list ->
    import_lines before = inr st ->
    kind_of fline = FaceLine ->
    index_tokens fline = (good ++ bad :: rest)%list ->
    Forall (fun tok => exists v, resolve (vertices st) tok = inr v) good ->
    (forall t, Py.int bad <> inr t) ->
    import_obj_with callback_func content = inl ValueError.
Proof.
  intros R callback_func content before fline after st good bad rest
         Hlines Hst Hf Htoks Hgood Hbad.
  unfold import_obj_with. fold (lines_of content). rewrite Hlines.
  unfold import_lines in *. rewrite for_each_app, Hst. simpl.
  rewrite (process_line_face st fline Hf).
  unfold face_line. fold (index_tokens fline). rewrite Htoks.
  assert (comprehension (resolve (vertices st)) (good ++ bad :: rest) = inl ValueError)
    as Hfail.
  { clear Htoks. induction Hgood as [|tok toks [v Hv] _ IH]; simpl.
    - unfold resolve at 1. destruct (Py.int bad) as [e|t] eqn:E.
      + rewrite (int_exn _ _ E). reflexivity.
      + exfalso. apply (Hbad t). reflexivity.
    - rewrite Hv. simpl. rewrite IH. reflexivity. }
  rewrite Hfail. reflexivity.
Qed.

End ParserLines.

Section ParserResult.

Context {PF : PyFloat}.
Implicit Types (st : import_state) (carr content : string).

Lemma pending_face_ok st :
  well_formed st -> triangles st <> [] -> face_ok (mkFace (face_idx st) (triangles st)).
Proof.
  intros (_ & _ & _ & _ & Hvn & Htn & Hrefs) Hne.
  split; [exact Hne|]. split; [exact Htn|]. simpl.
  eapply Forall_impl; [|exact Hrefs]. intros t Ht.
  eapply Forall_impl; [|exact Ht]. intros v Hin.
  apply (in_map vertex_id) in Hin. rewrite Hvn in Hin.
  apply ids_from_In in Hin. lia.
Qed.

Lemma faces_ok_snoc (fs : list Face) (f : Face) :
  faces_ok fs -> face_ok f -> face_id f = Py.len fs + 1 -> faces_ok (fs ++ [f]).
Proof.
  intros [Hids Hall] Hf Hid. split.
  - rewrite map_app, length_app, Hids. simpl.
    rewrite Nat.add_1_r, ids_from_snoc, Hid. unfold Py.len.
    do 2 f_equal. lia.
  - apply Forall_app. split; [exact Hall|]. constructor; [exact Hf|constructor].
Qed.

Lemma faces_built_initial : faces_built initial_state.
Proof. split; [reflexivity|]. split; [reflexivity|constructor]. Qed.

Lemma close_face_built st :
  well_formed st -> on_face st = true -> faces_built st -> faces_built (close_face st).
Proof.
  intros Hwf Hon [Hidx Hok]. unfold close_face, faces_built. simpl. split.
  - unfold Py.len in *. rewrite length_app. simpl. lia.
  - apply faces_ok_snoc; [exact Hok| |exact Hidx].
    apply pending_face_ok; [exact Hwf|]. apply Hwf, Hon.
Qed.

Lemma vertex_line_faces st data st' :
  vertex_line st data = inr st' ->
  faces st' = faces (if on_face st then close_face st else st) /\
  face_idx st' = face_idx (if on_face st then close_face st else st).
Proof.
  unfold vertex_line.
  destruct (Vertex_new _ _) as [e|v]; simpl; [discriminate|].
  intros E; inversion E; subst st'. split; reflexivity.
Qed.

Lemma face_line_faces st data st' :
  face_line st data = inr st' -> faces st' = faces st /\ face_idx st' = face_idx st.
Proof.
  unfold face_line.
  destruct (comprehension _ _) as [e|refs]; simpl; [discriminate|].
  intros E; inversion E; subst st'. split; reflexivity.
Qed.

Lemma process_line_built st carr st' :
  well_formed st -> faces_built st -> process_line st carr = inr st' -> faces_built st'.
Proof.
  intros Hwf Hb. destruct (kind_of carr) eqn:K.
  - rewrite (process_line_vertex st carr K). intros E.
    destruct (vertex_line_faces _ _ _ E) as [Hf Hi].
    unfold faces_built. rewrite Hf, Hi.
    destruct (on_face st) eqn:Hon; [|exact Hb].
    apply close_face_built; assumption.
  - rewrite (process_line_face st carr K). intros E.
    destruct (face_line_faces _ _ _ E) as [Hf Hi].
    unfold faces_built. rewrite Hf, Hi. exact Hb.
  - rewrite process_line_other by (unfold recognized; rewrite K; reflexivity).
    intros E; inversion E; subst; exact Hb.
Qed.

Lemma for_each_built (ls : list string) st st' :
  well_formed st -> faces_built st ->
  for_each process_line ls st = inr st' -> faces_built st'.
Proof.
  revert st; induction ls as [|l ls IH]; intros st Hwf Hb; simpl.
  - intros E; inversion E; subst; exact Hb.
  - destruct (process_line st l) as [e|s1] eqn:E1; simpl; [discriminate|].
    apply IH.
    + eapply process_line_well_formed; eassumption.
    + eapply process_line_built; eassumption.
Qed.

(** Every import that returns gives Faces numbered 1, 2, ... in order;
    each of them has at least one triangle, its triangles are numbered
    1, 2, ... in order and refer to vertices with identifiers from 1 on. *)
Theorem imported_faces_are_numbered :
  forall content r, import_obj content = inr r -> faces_ok r.
Proof.
  intros content r. unfold import_obj, import_obj_with, import_lines.
  destruct (for_each process_line (Py.split "010" content) initial_state)
    as [e|st] eqn:Hrun; simpl; [discriminate|].
  intros E; inversion E; subst r; clear E. unfold default_callback.
  pose proof (for_each_well_formed _ _ _ well_formed_initial Hrun) as Hwf.
  destruct (for_each_built _ _ _ well_formed_initial faces_built_initial Hrun)
    as [Hidx Hok].
  unfold final_faces. destruct (triangles st) as [|t ts] eqn:Ht; [exact Hok|].
  rewrite <- Ht. apply faces_ok_snoc; [exact Hok| |exact Hidx].
  apply pending_face_ok; [exact Hwf|]. rewrite Ht. discriminate.
Qed.

Lemma final_faces_length st :
  well_formed st ->
  length (final_faces st) = (length (faces st) + if on_face st then 1 else 0)%nat.
Proof.
  intros (Hnone & Hsome & _). unfold final_faces.
  destruct (on_face st).
  - destruct (triangles st) eqn:Ht; [exfalso; apply Hsome; reflexivity|].
    rewrite length_app. reflexivity.
  - rewrite Hnone by reflexivity. lia.
Qed.

Lemma for_each_runs (ls : list string) st st' :
  well_formed st ->
  for_each process_line ls st = inr st' ->
  length (final_faces st')
  = (length (faces st) + face_runs (on_face st) (map kind_of ls))%nat.
Proof.
  revert st; induction ls as [|l ls IH]; intros st Hwf; simpl.
  - intros E; inversion E; subst. apply final_faces_length, Hwf.
  - destruct (process_line st l) as [e|s1] eqn:E1; simpl; [discriminate|].
    intros Hrest.
    pose proof (process_line_well_formed _ _ _ Hwf E1) as Hwf1.
    rewrite (IH s1 Hwf1 Hrest). clear IH Hrest.
    destruct (kind_of l) eqn:K.
    + rewrite (process_line_vertex st l K) in E1.
      destruct (vertex_line_well_formed _ _ _ Hwf E1) as [_ Hoff].
      destruct (vertex_line_faces _ _ _ E1) as [Hf _].
      rewrite Hf, Hoff. destruct (on_face st); simpl; [|lia].
      rewrite length_app. simpl. lia.
    + rewrite (process_line_face st l K) in E1.
      destruct (face_line_well_formed _ _ _ Hwf E1) as [_ Hon].
      destruct (face_line_faces _ _ _ E1) as [Hf _].
      rewrite Hf, Hon. reflexivity.
    + rewrite process_line_other in E1 by (unfold recognized; rewrite K; reflexivity).
      inversion E1; subst. reflexivity.
Qed.

End ParserResult.

(** ** The lines of the serializer *)

Section Words.

Implicit Types (w s : string) (ws : list string).

Lemma body_of_cons w w' ws :
  body_of (w :: w' :: ws) = (w ++ " " ++ body_of (w' :: ws))%string.
Proof. reflexivity. Qed.

Lemma string_app_eq_nil s t : (s ++ t)%string = "" -> s = "".
Proof. destruct s; [reflexivity|discriminate]. Qed.

Lemma body_of_not_nil ws :
  ws <> [] -> Forall (fun w => solid w = true) ws -> body_of ws <> "".
Proof.
  destruct ws as [|w ws]; [congruence|]. intros _ Hall.
  inversion Hall as [|? ? Hw _]; subst.
  destruct ws as [|w' ws]; [apply solid_nonempty, Hw|].
  rewrite body_of_cons. intros E. apply string_app_eq_nil in E.
  apply (solid_nonempty w Hw E).
Qed.

Lemma body_of_no_char (p : ascii -> bool) ws :
  p " "%char = true ->
  Forall (fun w => all_chars p w = true) ws ->
  all_chars p (body_of ws) = true.
Proof.
  intros Hsp. induction 1 as [|w ws Hw Hws IH]; [reflexivity|].
  destruct ws as [|w' ws]; [exact Hw|].
  rewrite body_of_cons, !all_chars_app, Hw, IH. simpl. rewrite Hsp. reflexivity.
Qed.

Lemma solid_not_char (c : ascii) w :
  Py.isspace c = true -> solid w = true ->
  all_chars (fun a => negb (Ascii.eqb a c)) w = true.
Proof. intros Hc Hw. apply no_space_no_sep; [exact Hc|apply solid_no_space, Hw]. Qed.

(** A line of words has no newline in it. *)
Lemma body_of_one_line ws :
  Forall (fun w => solid w = true) ws ->
  all_chars (fun a => negb (Ascii.eqb a "010")) (body_of ws) = true.
Proof.
  intros Hall. apply body_of_no_char; [reflexivity|].
  eapply Forall_impl; [|exact Hall]. intros w. apply solid_not_char. reflexivity.
Qed.

Lemma rstrip_body_of ws :
  ws <> [] -> Forall (fun w => solid w = true) ws -> Py.rstrip (body_of ws) = body_of ws.
Proof.
  intros Hne Hall. induction Hall as [|w ws Hw Hws IH]; [congruence|].
  destruct ws as [|w' ws]; [apply rstrip_no_space, solid_no_space, Hw|].
  rewrite body_of_cons.
  assert (Py.rstrip (body_of (w' :: ws)) = body_of (w' :: ws)) as Hrest
      by (apply IH; discriminate).
  assert (body_of (w' :: ws) <> "") as Hnil
      by (apply body_of_not_nil; [discriminate|exact Hws]).
  rewrite rstrip_app_kept.
  - f_equal. simpl. rewrite Hrest. destruct (body_of (w' :: ws)); congruence.
  - simpl. rewrite Hrest. destruct (body_of (w' :: ws)); [congruence|discriminate].
Qed.

Lemma lstrip_body_of ws :
  Forall (fun w => solid w = true) ws -> Py.lstrip (body_of ws) = body_of ws.
Proof.
  destruct ws as [|w ws]; [reflexivity|]. intros Hall.
  inversion Hall as [|? ? Hw _]; subst.
  pose proof (solid_nonempty w Hw) as Hne.
  pose proof (solid_no_space w Hw) as Hns.
  destruct w as [|c w]; [congruence|]. simpl in Hns.
  apply andb_prop in Hns. destruct Hns as [Hc _]. apply negb_true_iff in Hc.
  destruct ws as [|w' ws]; [apply lstrip_cons, Hc|].
  rewrite body_of_cons. apply lstrip_cons, Hc.
Qed.

Lemma split_body_of ws :
  ws <> [] -> Forall (fun w => solid w = true) ws -> Py.split " " (body_of ws) = ws.
Proof.
  intros Hne Hall. induction Hall as [|w ws Hw Hws IH]; [congruence|].
  destruct ws as [|w' ws].
  - apply split_no_sep, solid_not_char; [reflexivity|exact Hw].
  - rewrite body_of_cons.
    change (" " ++ body_of (w' :: ws))%string with (String " " (body_of (w' :: ws))).
    rewrite split_app_sep by (apply solid_not_char; [reflexivity|exact Hw]).
    rewrite IH by discriminate. reflexivity.
Qed.

Lemma map_strip_solid ws : Forall (fun w => solid w = true) ws -> map Py.strip ws = ws.
Proof.
  induction 1 as [|w ws Hw _ IH]; [reflexivity|]. simpl.
  rewrite (strip_solid w Hw), IH. reflexivity.
Qed.

(** The parser reads back the words of a line written with single spaces. *)
Lemma tokenize_body_of ws :
  ws <> [] -> Forall (fun w => solid w = true) ws -> tokenize (body_of ws) = ws.
Proof.
  intros Hne Hall. unfold tokenize, Py.strip.
  rewrite lstrip_body_of, rstrip_body_of, split_body_of by assumption.
  apply map_strip_solid, Hall.
Qed.

Lemma lines_of_line_of ws (rest : string) :
  Forall (fun w => solid w = true) ws ->
  lines_of (line_of ws ++ rest) = body_of ws :: lines_of rest.
Proof.
  intros Hall. unfold lines_of, line_of, nl.
  rewrite string_app_assoc. simpl.
  apply split_app_sep, body_of_one_line, Hall.
Qed.

Lemma join_app (a b : list string) : join (a ++ b) = (join a ++ join b)%string.
Proof.
  induction a as [|l a IH]; simpl; [reflexivity|].
  rewrite IH, string_app_assoc. reflexivity.
Qed.

Lemma lines_of_block (wss : list (list string)) (rest : string) :
  Forall (Forall (fun w => solid w = true)) wss ->
  lines_of (join (map line_of wss) ++ rest) = (map body_of wss ++ lines_of rest)%list.
Proof.
  induction 1 as [|ws wss Hws _ IH]; simpl; [reflexivity|].
  rewrite string_app_assoc, lines_of_line_of by exact Hws.
  rewrite IH. reflexivity.
Qed.

End Words.

Lemma returned_eq {A} (a b : A) : @inr exn A a = inr b -> a = b.
Proof. congruence. Qed.

Section ExportLines.

Context {PF : PyFloat} {CO : Collaborators}.
Implicit Types (ps : list piece) (srf : Surface).

Lemma v_line_words (vert : MeshVertex) : v_line vert = line_of (v_words vert).
Proof.
  unfold v_line, line_of, v_words, body_of. 
  repeat (rewrite string_app_assoc || (progress simpl)). reflexivity.
Qed.

Lemma vp_line_words (vert : MeshVertex) : vp_line vert = line_of (vp_words vert).
Proof.
  unfold vp_line, line_of, vp_words, body_of. 
  repeat (rewrite string_app_assoc || (progress simpl)). reflexivity.
Qed.

Lemma render_face_words (idx : Z * Z * Z) : render_face idx = line_of (f_words idx).
Proof.
  destruct idx as [[a b] c]. unfold render_face, line_of, f_words, body_of. 
  repeat (rewrite string_app_assoc || (progress simpl)). reflexivity.
Qed.

Lemma vn_line_words srf (vert : MeshVertex) (l : string) :
  vn_line srf vert = inr l -> exists ws, l = line_of ws /\ vn_shaped ws.
Proof.
  unfold vn_line. destruct (surface_normal srf (uv vert) true) as [e|[pos [[n0 n1] n2]]];
    simpl; [discriminate|].
  intros E; inversion E; subst l; clear E.
  exists ["vn"; str_of_float n0; str_of_float n1; str_of_float n2]. split.
  - unfold line_of, body_of.
    repeat (rewrite string_app_assoc || (progress simpl)). reflexivity.
  - split; [reflexivity|]. intros Hp. repeat constructor; apply Hp.
Qed.

Lemma vn_lines_words srf (verts : list MeshVertex) (ls : list string) :
  comprehension (vn_line srf) verts = inr ls ->
  exists wss, ls = map line_of wss /\ length wss = length verts /\ Forall vn_shaped wss.
Proof.
  revert ls; induction verts as [|vert verts IH]; intros ls; simpl.
  - intros E; inversion E. exists []. repeat split. constructor.
  - destruct (vn_line srf vert) as [e|l] eqn:El; simpl; [discriminate|].
    destruct (comprehension (vn_line srf) verts) as [e|ls'] eqn:Els; simpl; [discriminate|].
    intros E; inversion E; subst ls; clear E.
    destruct (vn_line_words _ _ _ El) as (ws & -> & Hws).
    destruct (IH ls' eq_refl) as (wss & -> & Hlen & Hall).
    exists (ws :: wss). split; [reflexivity|]. split; [simpl; congruence|].
    constructor; assumption.
Qed.

Lemma vn_block_words (normals : bool) (srfs : list Surface) ps :
  Forall2 (tessellated normals) srfs ps ->
  exists wss,
    vn_block ps = map line_of wss /\
    length wss = (if normals then length (all_vertices ps) else 0%nat) /\
    Forall vn_shaped wss.
Proof.
  induction 1 as [|srf p srfs ps [_ Hp] _ (wss & Hwss & Hlen & Hall)].
  - exists []. split; [reflexivity|]. split; [destruct normals; reflexivity|constructor].
  - unfold vn_block, all_vertices in *. simpl. destruct normals.
    + destruct (vn_lines_words _ _ _ Hp) as (wss1 & -> & Hlen1 & Hall1).
      exists (wss1 ++ wss)%list. rewrite Hwss, map_app, !length_app, Hlen, Hlen1.
      split; [reflexivity|]. split; [reflexivity|].
      apply Forall_app. split; assumption.
    + rewrite Hp. exists wss. split; [exact Hwss|]. split; [exact Hlen|exact Hall].
Qed.

Lemma v_block_words ps : v_block ps = map line_of (map v_words (all_vertices ps)).
Proof.
  unfold v_block, all_vertices. induction ps as [|p ps IH]; simpl; [reflexivity|].
  rewrite IH, !map_app. f_equal.
  rewrite map_map. apply map_ext. intros vert. apply v_line_words.
Qed.

Lemma vp_block_words (parametric : bool) ps :
  vp_block parametric ps
  = map line_of (if parametric then map vp_words (all_vertices ps) else []).
Proof.
  unfold vp_block, all_vertices. destruct parametric; [|reflexivity].
  induction ps as [|p ps IH]; simpl; [reflexivity|].
  rewrite IH, !map_app. f_equal.
  rewrite map_map. apply map_ext. intros vert. apply vp_line_words.
Qed.

Lemma f_block_words (triples : list (Z * Z * Z)) :
  map render_face triples = map line_of (map f_words triples).
Proof. rewrite map_map. apply map_ext. intros idx. apply render_face_words. Qed.

Lemma v_words_solid (vert : MeshVertex) :
  floats_print_words -> Forall (fun w => solid w = true) (v_words vert).
Proof. intros Hp. repeat constructor; apply Hp. Qed.

Lemma vp_words_solid (vert : MeshVertex) :
  floats_print_words -> Forall (fun w => solid w = true) (vp_words vert).
Proof. intros Hp. repeat constructor; apply Hp. Qed.

Lemma f_words_solid (idx : Z * Z * Z) : Forall (fun w => solid w = true) (f_words idx).
Proof. destruct idx as [[a b] c]. repeat constructor; apply str_solid. Qed.

(** The lines of the text of an export, as the parser cuts them. *)
Lemma export_lines (surface : Geometry) (kwargs : export_kwargs) (text : string) ps :
  floats_print_words ->
  Forall2 (tessellated (kwargs_get (kw_vertex_normals kwargs) false)) (iter surface) ps ->
  export_obj_str surface kwargs = inr text ->
  exists vn_wss,
    length vn_wss = (if kwargs_get (kw_vertex_normals kwargs) false
                     then length (all_vertices ps) else 0%nat) /\
    Forall (fun ws => hd EmptyString ws = "vn" /\ Forall (fun w => solid w = true) ws)
           vn_wss /\
    lines_of text
    = (body_of header_words
         :: map body_of (map v_words (all_vertices ps))
         ++ map body_of vn_wss
         ++ map body_of (if kwargs_get (kw_parametric_vertices kwargs) false
                         then map vp_words (all_vertices ps) else [])
         ++ map body_of (map f_words (face_triples 0 ps))
         ++ [EmptyString])%list.
Proof.
  intros Hp Hps Hexp.
  destruct (export_checks surface kwargs text Hexp) as (Hdim & Hsp & _).
  rewrite (export_text surface kwargs ps Hdim Hsp Hps) in Hexp.
  apply returned_eq in Hexp. subst text.
  destruct (vn_block_words _ _ _ Hps) as (vn_wss & Hvn & Hlen & Hshape).
  exists vn_wss. split; [exact Hlen|]. split.
  { eapply Forall_impl; [|exact Hshape]. intros ws [Hhd Hws].
    split; [exact Hhd|apply Hws, Hp]. }
  rewrite v_block_words, Hvn, vp_block_words, f_block_words.
  change header with (line_of header_words).
  rewrite lines_of_line_of by (repeat constructor).
  f_equal.
  rewrite lines_of_block
    by (apply Forall_forall; intros ws Hin; apply in_map_iff in Hin;
        destruct Hin as (vert & <- & _); apply v_words_solid, Hp).
  f_equal.
  rewrite lines_of_block
    by (eapply Forall_impl; [|exact Hshape]; intros ws Hws; apply Hws, Hp).
  f_equal.
  rewrite lines_of_block.
  2:{ destruct (kwargs_get (kw_parametric_vertices kwargs) false); [|constructor].
      apply Forall_forall; intros ws Hin; apply in_map_iff in Hin.
      destruct Hin as (vert & <- & _); apply vp_words_solid, Hp. }
  f_equal.
  rewrite <- (string_app_nil_r (join _)).
  rewrite lines_of_block.
  2:{ apply Forall_forall; intros ws Hin; apply in_map_iff in Hin.
      destruct Hin as (idx & <- & _); apply f_words_solid. }
  reflexivity.
Qed.

End ExportLines.

Section Counting.

Implicit Types (ws : list string) (wss : list (list string)).

Lemma head_token_body_of ws :
  ws <> [] -> Forall (fun w => solid w = true) ws ->
  head_token (body_of ws) = hd EmptyString ws.
Proof. intros Hne Hall. unfold head_token. rewrite tokenize_body_of by assumption. reflexivity. Qed.

Lemma count_lines_app (tok : string) (a b : list string) :
  count_lines tok (a ++ b) = (count_lines tok a + count_lines tok b)%nat.
Proof. unfold count_lines. rewrite filter_app, length_app. reflexivity. Qed.

Lemma count_lines_single (tok l : string) :
  count_lines tok [l] = if String.eqb (head_token l) tok then 1%nat else 0%nat.
Proof. unfold count_lines. simpl. destruct (String.eqb (head_token l) tok); reflexivity. Qed.

Lemma count_lines_headed (tok h : string) wss :
  Forall (fun ws => hd EmptyString ws = h /\ ws <> [] /\ Forall (fun w => solid w = true) ws)
         wss ->
  count_lines tok (map body_of wss) = if String.eqb h tok then length wss else 0%nat.
Proof.
  unfold count_lines.
  induction 1 as [|ws wss (Hh & Hne & Hws) _ IH]; simpl.
  - destruct (String.eqb h tok); reflexivity.
  - rewrite head_token_body_of, Hh by assumption.
    destruct (String.eqb h tok); simpl; rewrite IH; reflexivity.
Qed.

End Counting.

Section LineCounts.

Context {PF : PyFloat} {CO : Collaborators}.
Implicit Types (ps : list piece).

Lemma face_triples_length (offset : Z) ps :
  length (face_triples offset ps) = total_triangles ps.
Proof.
  unfold total_triangles. revert offset; induction ps as [|p ps IH]; intros offset; simpl.
  - reflexivity.
  - rewrite !length_app, length_map, IH. reflexivity.
Qed.

Lemma headed_v (verts : list MeshVertex) :
  floats_print_words ->
  Forall (fun ws => hd EmptyString ws = "v" /\ ws <> [] /\ Forall (fun w => solid w = true) ws)
         (map v_words verts).
Proof.
  intros Hp. apply Forall_forall. intros ws Hin. apply in_map_iff in Hin.
  destruct Hin as (vert & <- & _).
  split; [reflexivity|]. split; [discriminate|apply v_words_solid, Hp].
Qed.

Lemma headed_vp (verts : list MeshVertex) :
  floats_print_words ->
  Forall (fun ws => hd EmptyString ws = "vp" /\ ws <> [] /\ Forall (fun w => solid w = true) ws)
         (map vp_words verts).
Proof.
  intros Hp. apply Forall_forall. intros ws Hin. apply in_map_iff in Hin.
  destruct Hin as (vert & <- & _).
  split; [reflexivity|]. split; [discriminate|apply vp_words_solid, Hp].
Qed.

Lemma headed_f (triples : list (Z * Z * Z)) :
  Forall (fun ws => hd EmptyString ws = "f" /\ ws <> [] /\ Forall (fun w => solid w = true) ws)
         (map f_words triples).
Proof.
  apply Forall_forall. intros ws Hin. apply in_map_iff in Hin.
  destruct Hin as ([[a b] c] & <- & _).
  split; [reflexivity|]. split; [discriminate|apply (f_words_solid (a, b, c))].
Qed.

Lemma headed_vn (wss : list (list string)) :
  Forall (fun ws => hd EmptyString ws = "vn" /\ Forall (fun w => solid w = true) ws) wss ->
  Forall (fun ws => hd EmptyString ws = "vn" /\ ws <> [] /\ Forall (fun w => solid w = true) ws)
         wss.
Proof.
  apply Forall_impl. intros ws [Hh Hws]. split; [exact Hh|]. split; [|exact Hws].
  intros ->. discriminate.
Qed.

(** The text of an export has, as the parser cuts it into lines and
    tokens, one line starting with [#], one line starting with [v] for each
    vertex of the meshes, as many lines starting with [vn] when
    [vertex_normals] is set and none otherwise, the same for [vp] and
    [parametric_vertices], one line starting with [f] for each triangle,
    and one empty last line; floats being printed as one word each. *)
Theorem exported_line_counts :
  forall (surface : Geometry) (kwargs : export_kwargs) (text : string) ps,
    floats_print_words ->
    Forall2 (tessellated (kwargs_get (kw_vertex_normals kwargs) false)) (iter surface) ps ->
    export_obj_str surface kwargs = inr text ->
    count_lines "#" (lines_of text) = 1%nat /\
    count_lines "v" (lines_of text) = length (all_vertices ps) /\
    count_lines "vn" (lines_of text)
    = (if kwargs_get (kw_vertex_normals kwargs) false
       then length (all_vertices ps) else 0%nat) /\
    count_lines "vp" (lines_of text)
    = (if kwargs_get (kw_parametric_vertices kwargs) false
       then length (all_vertices ps) else 0%nat) /\
    count_lines "f" (lines_of text) = total_triangles ps /\
    length (lines_of text)
    = (2 + count_lines "v" (lines_of text) + count_lines "vn" (lines_of text)
       + count_lines "vp" (lines_of text) + count_lines "f" (lines_of text))%nat.
Proof.
  intros surface kwargs text ps Hp Hps Hexp.
  destruct (export_lines surface kwargs text ps Hp Hps Hexp) as (vn_wss & Hlen & Hvn & ->).
  apply headed_vn in Hvn.
  pose proof (headed_v (all_vertices ps) Hp) as Hv.
  pose proof (headed_f (face_triples 0 ps)) as Hf.
  assert (Forall (fun ws => hd EmptyString ws = "vp" /\ ws <> [] /\
                            Forall (fun w => solid w = true) ws)
                 (if kwargs_get (kw_parametric_vertices kwargs) false
                  then map vp_words (all_vertices ps) else [])) as Hvp.
  { destruct (kwargs_get (kw_parametric_vertices kwargs) false);
      [apply headed_vp, Hp|constructor]. }
  assert (forall tok,
             count_lines tok
               (body_of header_words
                  :: map body_of (map v_words (all_vertices ps))
                  ++ map body_of vn_wss
                  ++ map body_of (if kwargs_get (kw_parametric_vertices kwargs) false
                                  then map vp_words (all_vertices ps) else [])
                  ++ map body_of (map f_words (face_triples 0 ps))
                  ++ [EmptyString])
             = ((if String.eqb "#" tok then 1 else 0)
                + ((if String.eqb "v" tok then length (all_vertices ps) else 0)
                   + ((if String.eqb "vn" tok then length vn_wss else 0)
                      + ((if String.eqb "vp" tok
                          then length (if kwargs_get (kw_parametric_vertices kwargs) false
                                       then map vp_words (all_vertices ps) else [])
                          else 0)
                         + ((if String.eqb "f" tok then total_triangles ps else 0)
                            + (if String.eqb "" tok then 1 else 0))))))%nat) as Hcount.
  { intros tok.
    change (body_of header_words :: ?l) with ([body_of header_words] ++ l)%list.
    rewrite !count_lines_app.
    rewrite (count_lines_headed tok "v" _ Hv), (count_lines_headed tok "vn" _ Hvn),
      (count_lines_headed tok "vp" _ Hvp), (count_lines_headed tok "f" _ Hf).
    rewrite !length_map, face_triples_length.
    rewrite !count_lines_single.
    change (head_token (body_of header_words)) with "#".
    change (head_token "") with "".
    reflexivity. }
  rewrite !Hcount. simpl. rewrite Hlen.
  repeat split; try lia.
  - destruct (kwargs_get (kw_parametric_vertices kwargs) false);
      rewrite ?length_map; simpl; lia.
  - rewrite !length_app, !length_map, face_triples_length, Hlen. simpl.
    destruct (kwargs_get (kw_parametric_vertices kwargs) false);
      rewrite ?length_map; simpl; lia.
Qed.

End LineCounts.

Lemma bind_inr {A B} (a : A) (k : A -> result B) : bind (inr a) k = k a.
Proof. reflexivity. Qed.

Section RoundTrip.

Context {PF : PyFloat} {CO : Collaborators}.
Implicit Types (ps : list piece) (st : import_state).

Lemma kind_of_body_of (ws : list string) :
  ws <> [] -> Forall (fun w => solid w = true) ws ->
  kind_of (body_of ws)
  = if String.eqb (hd EmptyString ws) "v" then VertexLine
    else if String.eqb (hd EmptyString ws) "f" then FaceLine
    else OtherLine.
Proof.
  intros Hne Hall. unfold kind_of. rewrite tokenize_body_of by assumption. reflexivity.
Qed.

Lemma headed_other (h : string) (wss : list (list string)) :
  String.eqb h "v" = false -> String.eqb h "f" = false ->
  Forall (fun ws => hd EmptyString ws = h /\ ws <> [] /\ Forall (fun w => solid w = true) ws)
         wss ->
  Forall (fun l => recognized l = false) (map body_of wss).
Proof.
  intros Hv Hf Hall. apply Forall_forall. intros l Hin. apply in_map_iff in Hin.
  destruct Hin as (ws & <- & Hin).
  rewrite Forall_forall in Hall. destruct (Hall ws Hin) as (Hh & Hne & Hws).
  unfold recognized. rewrite kind_of_body_of, Hh, Hv, Hf by assumption. reflexivity.
Qed.

Lemma number_from_length (id : Z) (verts : list MeshVertex) :
  length (number_from id verts) = length verts.
Proof. revert id; induction verts as [|v verts IH]; intros id; simpl; [|rewrite IH]; reflexivity. Qed.

(** The run of the parser over the [v] lines of the serializer. *)
Lemma v_lines_run (verts : list MeshVertex) :
  floats_print_and_read ->
  forall st,
    on_face st = false ->
    for_each process_line (map body_of (map v_words verts)) st
    = inr (mkState false (vertices st ++ number_from (vert_idx st) verts)
                   (triangles st) (faces st)
                   (vert_idx st + Py.len verts) (tri_idx st) (face_idx st)).
Proof.
  intros Hrw. induction verts as [|vert verts IH]; intros st Hoff.
  - simpl. rewrite app_nil_r, Z.add_0_r. destruct st; simpl in *; subst; reflexivity.
  - assert (floats_print_words) as Hp by (intros v; apply Hrw).
    cbn [map for_each].
    assert (kind_of (body_of (v_words vert)) = VertexLine) as K
        by (rewrite kind_of_body_of; [reflexivity|discriminate|apply v_words_solid, Hp]).
    rewrite (process_line_vertex st _ K).
    rewrite tokenize_body_of by (try discriminate; apply v_words_solid, Hp).
    unfold vertex_line. rewrite Hoff. simpl tl. unfold Vertex_new, py_float.
    rewrite !(proj2 (Hrw _)). simpl.
    rewrite IH by exact Hoff. simpl.
    rewrite <- app_assoc. simpl. do 2 f_equal.
    unfold Py.len. simpl length. lia.
Qed.

Lemma resolve_str (vs : list Vertex) (i : Z) :
  1 <= i <= Py.len vs ->
  exists v, resolve vs (Py.str i) = inr v /\ corner vs i = [v].
Proof.
  intros Hi. unfold resolve, corner. rewrite int_str. simpl.
  destruct (getitem_front vs (i - 1)) as (v & Hv & Hnth); [lia|].
  exists v. rewrite Hv, Hnth. split; reflexivity.
Qed.

(** The run of the parser over the [f] lines of the serializer. *)
Lemma f_lines_run (triples : list (Z * Z * Z)) :
  forall st,
    Forall (fun idx => Forall (fun i => 1 <= i <= Py.len (vertices st)) (indices_of idx))
           triples ->
    for_each process_line (map body_of (map f_words triples)) st
    = inr (mkState (match triples with [] => on_face st | _ => true end)
                   (vertices st)
                   (triangles st ++ triangles_from (vertices st) (tri_idx st) triples)
                   (faces st) (vert_idx st)
                   (tri_idx st + Py.len triples) (face_idx st)).
Proof.
  induction triples as [|[[a b] c] triples IH]; intros st Hall.
  - simpl. rewrite app_nil_r, Z.add_0_r. destruct st; reflexivity.
  - inversion Hall as [|? ? Hidx Hrest]; subst.
    inversion Hidx as [|? ? Ha Hbc]; subst.
    inversion Hbc as [|? ? Hb Hc']; subst.
    inversion Hc' as [|? ? Hc _]; subst.
    cbn [map for_each].
    assert (kind_of (body_of (f_words (a, b, c))) = FaceLine) as K
        by (rewrite kind_of_body_of;
            [reflexivity|discriminate|apply (f_words_solid (a, b, c))]).
    rewrite (process_line_face st _ K).
    rewrite tokenize_body_of
      by (try discriminate; apply (f_words_solid (a, b, c))).
    unfold face_line. simpl tl.
    destruct (resolve_str (vertices st) a Ha) as (va & Hva & Hca).
    destruct (resolve_str (vertices st) b Hb) as (vb & Hvb & Hcb).
    destruct (resolve_str (vertices st) c Hc) as (vc & Hvc & Hcc).
    cbn [comprehension]. rewrite Hva, Hvb, Hvc. simpl.
    rewrite IH by exact Hrest. simpl.
    rewrite Hca, Hcb, Hcc, <- app_assoc. simpl.
    assert (tri_idx st + 1 + Py.len triples = tri_idx st + Py.len ((a, b, c) :: triples))
      as -> by (unfold Py.len; simpl length; lia).
    destruct triples; reflexivity.
Qed.

Lemma all_vertices_len ps : Py.len (all_vertices ps) = total_vertices ps.
Proof.
  unfold all_vertices. induction ps as [|p ps IH]; simpl; [reflexivity|].
  rewrite len_app, IH. reflexivity.
Qed.

(** The parser on the lines of the serializer: it raises nothing and ends
    with the Faces [reimported]. *)
Lemma reimport_lines ps (vn_wss : list (list string)) (parametric : bool) :
  floats_print_and_read ->
  Forall (fun ws => hd EmptyString ws = "vn" /\ Forall (fun w => solid w = true) ws)
         vn_wss ->
  Forall mesh_in_range (map fst ps) ->
  exists st,
    import_lines
      (body_of header_words
         :: map body_of (map v_words (all_vertices ps))
         ++ map body_of vn_wss
         ++ map body_of (if parametric then map vp_words (all_vertices ps) else [])
         ++ map body_of (map f_words (face_triples 0 ps))
         ++ [EmptyString])%list = inr st /\
    final_faces st = reimported ps.
Proof.
  intros Hrw Hvn Hrange.
  assert (floats_print_words) as Hp by (intros v; apply Hrw).
  unfold import_lines. cbn [for_each].
  rewrite process_line_other by reflexivity. rewrite bind_inr.
  rewrite for_each_app, v_lines_run by (assumption || reflexivity). rewrite bind_inr.
  rewrite for_each_app, for_each_other
    by (apply (headed_other "vn"); [reflexivity|reflexivity|apply headed_vn, Hvn]).
  rewrite bind_inr.
  rewrite for_each_app, for_each_other.
  2:{ apply (headed_other "vp"); [reflexivity|reflexivity|].
      destruct parametric; [apply headed_vp, Hp|constructor]. }
  rewrite bind_inr.
  rewrite for_each_app, f_lines_run.
  2:{ simpl vertices. apply Forall_flat_map.
      eapply Forall_impl; [|apply (face_triples_range ps Hrange 0)].
      intros i Hi. simpl in Hi. unfold Py.len. rewrite number_from_length.
      fold (Py.len (all_vertices ps)). rewrite all_vertices_len. lia. }
  rewrite bind_inr. cbn [for_each].
  rewrite process_line_other by reflexivity. simpl.
  eexists. split; [reflexivity|].
  unfold final_faces, reimported. simpl.
  destruct (face_triples 0 ps) as [|[[a b] c] triples]; reflexivity.
Qed.

End RoundTrip.

Section SerializerMore.

Context {PF : PyFloat} {CO : Collaborators}.
Implicit Types (ps : list piece) (srf : Surface) (surface : Geometry) (kwargs : export_kwargs).

Lemma v_block_app ps qs : v_block (ps ++ qs) = (v_block ps ++ v_block qs)%list.
Proof. unfold v_block. apply flat_map_app. Qed.

(** The face lines of a surface carry, for the local index [i] of a mesh
    triangle, the number [i + 1 + offset], the offset being the number of
    vertices of the surfaces before; and the [v] line with that number,
    counted from 1 over the whole text, is the line of the vertex [i] of
    that very surface. *)
Theorem face_index_points_at_its_vertex :
  forall surface kwargs text (before : list piece) (p : piece) (after : list piece),
    Forall2 (tessellated (kwargs_get (kw_vertex_normals kwargs) false))
            (iter surface) (before ++ p :: after) ->
    export_obj_str surface kwargs = inr text ->
    text = (header ++ join (v_block (before ++ p :: after))
                   ++ join (vn_block (before ++ p :: after))
                   ++ join (vp_block (kwargs_get (kw_parametric_vertices kwargs) false)
                                     (before ++ p :: after))
                   ++ join (map render_face
                                (face_triples 0 before
                                 ++ map (global_face (total_vertices before))
                                        (piece_triangles p)
                                 ++ face_triples (total_vertices before
                                                  + Py.len (piece_vertices p)) after)))%string /\
    forall (i : Z) (vert : MeshVertex),
      0 <= i ->
      nth_error (piece_vertices p) (Z.to_nat i) = Some vert ->
      nth_error (v_block (before ++ p :: after))
                (Z.to_nat (i + 1 + total_vertices before - 1))
      = Some (v_line vert).
Proof.
  intros surface kwargs text before p after Hps Hexp.
  destruct (export_checks surface kwargs text Hexp) as (Hdim & Hsp & _).
  rewrite (export_text surface kwargs _ Hdim Hsp Hps) in Hexp.
  apply returned_eq in Hexp. subst text. split.
  - rewrite face_triples_app. reflexivity.
  - intros i vert Hi Hnth.
    rewrite v_block_app.
    pose proof (v_block_len before) as Hlen. unfold Py.len in Hlen.
    rewrite nth_error_app2 by lia.
    replace (Z.to_nat (i + 1 + total_vertices before - 1) - length (v_block before))%nat
      with (Z.to_nat i) by lia.
    change (v_block (p :: after))
      with (map v_line (piece_vertices p) ++ v_block after)%list.
    assert (Z.to_nat i < length (piece_vertices p))%nat as Hlt
        by (apply nth_error_Some; congruence).
    rewrite nth_error_app1 by (rewrite length_map; exact Hlt).
    apply map_nth_error, Hnth.
Qed.

Lemma tessellated_piece_of (normals : bool) srf (p : piece) :
  tessellated normals srf p <-> piece_of normals srf = inr p.
Proof.
  unfold tessellated, piece_of, piece_vertices, piece_normals.
  destruct p as [mesh lines]. simpl. split.
  - intros [Hm Hl]. rewrite Hm. simpl. destruct normals.
    + rewrite Hl. reflexivity.
    + subst lines. reflexivity.
  - destruct (make_triangle_mesh _ _ _ _) as [e|m]; simpl; [discriminate|].
    destruct normals.
    + destruct (comprehension _ _) as [e|ls] eqn:El; simpl; [discriminate|].
      intros E; inversion E; subst. split; [reflexivity|exact El].
    + simpl. intros E; inversion E; subst. split; reflexivity.
Qed.

Lemma export_surface_raises (normals parametric : bool) (st : export_state) srf e :
  piece_of normals srf = inl e -> export_surface normals parametric st srf = inl e.
Proof.
  unfold piece_of, export_surface.
  destruct (make_triangle_mesh _ _ _ _) as [e'|[vs ts]]; simpl; [congruence|].
  destruct normals; simpl; [|discriminate].
  destruct (comprehension _ _) as [e'|ls]; simpl; [congruence|discriminate].
Qed.

(** When the two checks pass, the export raises what the first
    collaborator call that fails raises, surfaces being taken in order and,
    for each, the tessellator before the normals: no text is returned for
    the surfaces already done. *)
Theorem first_failure_is_raised :
  forall surface kwargs (before : list Surface) srf (after : list Surface)
         (ps : list piece) (e : exn),
    pdimension surface = 2 ->
    1 <= kwargs_get (kw_vertex_spacing kwargs) 1 ->
    iter surface = (before ++ srf :: after)%list ->
    Forall2 (tessellated (kwargs_get (kw_vertex_normals kwargs) false)) before ps ->
    piece_of (kwargs_get (kw_vertex_normals kwargs) false) srf = inl e ->
    export_obj_str surface kwargs = inl e.
Proof.
  intros surface kwargs before srf after ps e Hdim Hsp Hiter Hps Hfail.
  unfold export_obj_str. rewrite Hdim. simpl.
  replace (kwargs_get (kw_vertex_spacing kwargs) 1 <? 1) with false
    by (symmetry; apply Z.ltb_ge; exact Hsp).
  rewrite Hiter, for_each_app, (export_loop _ _ _ _ Hps) by reflexivity.
  simpl. rewrite (export_surface_raises _ _ _ _ _ Hfail). reflexivity.
Qed.

(** When the parametric dimension is 2, the spacing is at least 1 and the
    collaborators answer for every surface, the export returns, and its
    text is the comment line followed by the four blocks. The normals are
    asked for only when [vertex_normals] is set. *)
Theorem export_returns :
  forall surface kwargs (ps : list piece),
    pdimension surface = 2 ->
    1 <= kwargs_get (kw_vertex_spacing kwargs) 1 ->
    Forall2 (fun srf p => piece_of (kwargs_get (kw_vertex_normals kwargs) false) srf = inr p)
            (iter surface) ps ->
    export_obj_str surface kwargs
    = inr (header ++ join (v_block ps) ++ join (vn_block ps)
                  ++ join (vp_block (kwargs_get (kw_parametric_vertices kwargs) false) ps)
                  ++ join (map render_face (face_triples 0 ps)))%string.
Proof.
  intros surface kwargs ps Hdim Hsp Hps.
  apply export_text; [exact Hdim|exact Hsp|].
  eapply Forall2_impl; [|exact Hps].
  intros srf p. apply tessellated_piece_of.
Qed.

End SerializerMore.

Section ParserEdges.

Context {PF : PyFloat}.

Lemma face_runs_none (kinds : list line_kind) :
  Forall (fun k => k <> FaceLine) kinds -> face_runs false kinds = 0%nat.
Proof.
  induction 1 as [|k ks Hk _ IH]; simpl; [reflexivity|].
  destruct k; [exact IH|congruence|exact IH].
Qed.

(** A text without any [v] or [f] line, the empty text among them, imports
    without error to the callback's value on the empty list; and a text
    without [f] lines has no Face, its vertices being dropped. *)
Theorem no_face_line_no_face :
  (forall (R : Type) (callback_func : list Face -> R) content,
      recognized_lines content = [] ->
      import_obj_with callback_func content = inr (callback_func [])) /\
  (forall content r,
      Forall (fun l => kind_of l <> FaceLine) (lines_of content) ->
      import_obj content = inr r -> r = []).
Proof.
  split.
  - intros R callback_func content Hnone.
    unfold import_obj_with. fold (lines_of content).
    rewrite import_lines_recognized, Hnone. reflexivity.
  - intros content r Hkinds. unfold import_obj, import_obj_with, import_lines.
    fold (lines_of content).
    destruct (for_each process_line (lines_of content) initial_state)
      as [e|st] eqn:Hrun; simpl; [discriminate|].
    intros E. apply returned_eq in E. subst r. unfold default_callback.
    pose proof (for_each_runs _ _ _ well_formed_initial Hrun) as Hlen.
    rewrite face_runs_none in Hlen by (apply Forall_map; exact Hkinds).
    destruct (final_faces st); [reflexivity|discriminate].
Qed.

End ParserEdges.

Section FileTheorems.

Context {PF : PyFloat} {CO : Collaborators} {FS : Files}.

(** [export_obj] on an export that raises raises the same and leaves the
    files as they were. When it returns, and the file holds what was
    written to it, [import_obj] on that file returns what the import of the
    text returns: one Face over the vertices of all the surfaces. *)
Theorem export_obj_then_import_obj :
  (forall (surface : Geometry) file_name kwargs disk e,
      export_obj_str surface kwargs = inl e ->
      export_obj surface file_name kwargs disk = (inl e, disk)) /\
  (forall (surface : Geometry) file_name kwargs disk w disk' (ps : list piece),
      reads_what_was_written ->
      floats_print_and_read ->
      Forall2 (tessellated (kwargs_get (kw_vertex_normals kwargs) false)) (iter surface) ps ->
      Forall mesh_in_range (map fst ps) ->
      export_obj surface file_name kwargs disk = (inr w, disk') ->
      import_obj_file default_callback file_name disk' = inr (reimported ps)).
Proof.
  split.
  - intros surface file_name kwargs disk e Hexp. unfold export_obj. rewrite Hexp. reflexivity.
  - intros surface file_name kwargs disk w disk' ps Hfiles Hrw Hps Hrange.
    unfold export_obj.
    destruct (export_obj_str surface kwargs) as [e|text] eqn:Hexp; [discriminate|].
    intros Hwrite. unfold import_obj_file.
    rewrite (Hfiles _ _ _ _ _ Hwrite). simpl.
    assert (floats_print_words) as Hp by (intros v; apply Hrw).
    destruct (export_lines surface kwargs text ps Hp Hps Hexp)
      as (vn_wss & _ & Hvn & Hlines).
    unfold import_obj_with. fold (lines_of text). rewrite Hlines.
    destruct (reimport_lines ps vn_wss (kwargs_get (kw_parametric_vertices kwargs) false)
                Hrw Hvn Hrange) as (st & Hst & Hfaces).
    rewrite Hst. simpl. unfold default_callback. rewrite Hfaces. reflexivity.
Qed.

End FileTheorems.


Section WholeTexts.

Context {PF : PyFloat} {CO : Collaborators}.

(** An import that returns gives as many Faces as the text has maximal
    runs of [f] lines, lines that are neither [v] nor [f] lines not
    breaking a run. *)
Theorem one_face_per_run_of_face_lines :
  forall content r,
    import_obj content = inr r ->
    length r = face_runs false (map kind_of (lines_of content)).
Proof.
  intros content r. unfold import_obj, import_obj_with, import_lines.
  fold (lines_of content).
  destruct (for_each process_line (lines_of content) initial_state)
    as [e|st] eqn:Hrun; simpl; [discriminate|].
  intros E. apply returned_eq in E. subst r. unfold default_callback.
  rewrite (for_each_runs _ _ _ well_formed_initial Hrun). reflexivity.
Qed.

(** What is exported can be imported. When floats are printed as one word
    that reads back as the same float, and every mesh refers to its own
    vertices only, the text of an export imports without error. All the
    [v] lines coming before all the [f] lines, the surfaces are merged:
    the result is a single Face with id 1 (no Face when the meshes have no
    triangle) whose triangles are those of all the surfaces, numbered from
    1, over the vertices of all the surfaces, numbered from 1. *)
Theorem export_then_import :
  forall (surface : Geometry) (kwargs : export_kwargs) (text : string) (ps : list piece),
    floats_print_and_read ->
    Forall2 (tessellated (kwargs_get (kw_vertex_normals kwargs) false)) (iter surface) ps ->
    Forall mesh_in_range (map fst ps) ->
    export_obj_str surface kwargs = inr text ->
    import_obj text = inr (reimported ps).
Proof.
  intros surface kwargs text ps Hrw Hps Hrange Hexp.
  assert (floats_print_words) as Hp by (intros v; apply Hrw).
  destruct (export_lines surface kwargs text ps Hp Hps Hexp) as (vn_wss & _ & Hvn & Hlines).
  unfold import_obj, import_obj_with. fold (lines_of text). rewrite Hlines.
  destruct (reimport_lines ps vn_wss (kwargs_get (kw_parametric_vertices kwargs) false)
              Hrw Hvn Hrange) as (st & Hst & Hfaces).
  rewrite Hst. simpl. unfold default_callback. rewrite Hfaces. reflexivity.
Qed.

End WholeTexts.

(** ** Tokens between tabs *)

Section Tabs.

Implicit Types (w p a b : string) (ws ps : list string).

Lemma tabs_blank a : tabs a = true -> blank a = true.
Proof.
  apply all_chars_impl. intros c Hc. apply andb_prop in Hc. apply Hc.
Qed.

Lemma tabs_no_space a :
  tabs a = true -> all_chars (fun c => negb (Ascii.eqb c " ")) a = true.
Proof.
  apply all_chars_impl. intros c Hc. apply andb_prop in Hc. apply Hc.
Qed.

Lemma tab_padded_no_space w p :
  solid w = true -> tab_padded w p ->
  all_chars (fun c => negb (Ascii.eqb c " ")) p = true.
Proof.
  intros Hw (a & b & Ha & Hb & ->).
  rewrite !all_chars_app, (tabs_no_space a Ha), (tabs_no_space b Hb).
  rewrite (solid_not_char " " w eq_refl Hw). reflexivity.
Qed.

Lemma tab_padded_strip w p : tab_padded w p -> solid w = true -> Py.strip p = w.
Proof.
  intros (a & b & Ha & Hb & ->) Hw.
  rewrite strip_padded by (apply tabs_blank; assumption).
  apply strip_solid, Hw.
Qed.

Lemma tab_padded_not_nil w p : solid w = true -> tab_padded w p -> p <> "".
Proof.
  intros Hw (a & b & _ & _ & ->) E.
  destruct a; simpl in E; [|discriminate].
  apply string_app_eq_nil in E. apply (solid_nonempty w Hw E).
Qed.

Lemma body_of_first_not_nil p ps : p <> "" -> body_of (p :: ps) <> "".
Proof.
  intros Hp. destruct ps as [|p' ps]; [exact Hp|].
  rewrite body_of_cons. intros E. apply string_app_eq_nil in E. congruence.
Qed.

Lemma body_of_prefix a q ps : body_of ((a ++ q)%string :: ps) = (a ++ body_of (q :: ps))%string.
Proof.
  destruct ps as [|p' ps]; [reflexivity|].
  rewrite !body_of_cons, string_app_assoc. reflexivity.
Qed.

Lemma split_words ps :
  ps <> [] -> Forall (fun p => all_chars (fun c => negb (Ascii.eqb c " ")) p = true) ps ->
  Py.split " " (body_of ps) = ps.
Proof.
  intros Hne Hall. induction Hall as [|p ps Hp Hps IH]; [congruence|].
  destruct ps as [|p' ps].
  - apply split_no_sep, Hp.
  - rewrite body_of_cons.
    change (" " ++ body_of (p' :: ps))%string with (String " " (body_of (p' :: ps))).
    rewrite split_app_sep by exact Hp.
    rewrite IH by discriminate. reflexivity.
Qed.

(** Stripping a line of padded words on the right trims its last word. *)
Lemma rstrip_words ws ps :
  Forall (fun w => solid w = true) ws -> Forall2 tab_padded ws ps -> ws <> [] ->
  exists ps', Py.rstrip (body_of ps) = body_of ps' /\ Forall2 tab_padded ws ps'.
Proof.
  intros Hws Hpad. revert Hws.
  induction Hpad as [|w p ws ps Hp Hrest IH]; intros Hws Hne; [congruence|].
  inversion Hws as [|? ? Hw Hws']; subst.
  destruct Hrest as [|w' p' ws ps Hp' Hrest].
  - destruct Hp as (a & b & Ha & Hb & ->).
    exists [(a ++ w ++ "")%string]. split.
    + unfold body_of. cbn [String.concat]. rewrite string_app_nil_r, <- string_app_assoc.
      rewrite rstrip_app_blank by (apply tabs_blank, Hb).
      rewrite rstrip_app_kept
        by (rewrite (rstrip_no_space w (solid_no_space w Hw)); apply solid_nonempty, Hw).
      rewrite (rstrip_no_space w (solid_no_space w Hw)). reflexivity.
    + constructor; [|constructor]. exists a, "". repeat split; assumption || reflexivity.
  - destruct IH as (ps2 & Hr & Hpad2); [exact Hws'|discriminate|].
    exists (p :: ps2). split.
    + inversion Hpad2 as [|? q2 ? qs2 Hq2 Hqs2]; subst.
      inversion Hws' as [|? ? Hw' _]; subst.
      assert (body_of (q2 :: qs2) <> "") as Hnil
          by (apply body_of_first_not_nil; eapply tab_padded_not_nil; eassumption).
      rewrite !body_of_cons. rewrite rstrip_app_kept.
      * f_equal. simpl. rewrite Hr.
        destruct (body_of (q2 :: qs2)); [congruence|reflexivity].
      * simpl. rewrite Hr. destruct (body_of (q2 :: qs2)); [congruence|discriminate].
    + constructor; assumption.
Qed.

Lemma lstrip_words w p ws ps :
  solid w = true -> tab_padded w p ->
  exists p', Py.lstrip (body_of (p :: ps)) = body_of (p' :: ps) /\ tab_padded w p'.
Proof.
  intros Hw (a & b & Ha & Hb & ->).
  exists (w ++ b)%string. split.
  - rewrite body_of_prefix, lstrip_blank_app by (apply tabs_blank, Ha).
    pose proof (solid_nonempty w Hw) as Hne.
    pose proof (solid_no_space w Hw) as Hns.
    destruct w as [|c w]; [congruence|]. simpl in Hns.
    apply andb_prop in Hns. destruct Hns as [Hc _]. apply negb_true_iff in Hc.
    change (body_of ((String c w ++ b)%string :: ps))
      with (body_of (String c (w ++ b) :: ps)).
    destruct ps as [|p2 ps]; [apply lstrip_cons, Hc|].
    rewrite body_of_cons. apply lstrip_cons, Hc.
  - exists "", b. repeat split; assumption || reflexivity.
Qed.

Lemma map_strip_padded ws ps :
  Forall (fun w => solid w = true) ws -> Forall2 tab_padded ws ps -> map Py.strip ps = ws.
Proof.
  intros Hws Hpad. revert Hws. induction Hpad as [|w p ws ps Hp _ IH]; intros Hws.
  - reflexivity.
  - inversion Hws; subst. simpl. rewrite (tab_padded_strip w p) by assumption.
    rewrite IH by assumption. reflexivity.
Qed.

Context {PF : PyFloat}.

(** The tokens of a line are separated by single spaces, and each may stand
    between whitespace other than spaces, such as tabs: the line is read
    as the line of the bare tokens. *)
Theorem tabs_around_tokens_are_ignored :
  forall (st : import_state) ws ps,
    ws <> [] ->
    Forall (fun w => solid w = true) ws ->
    Forall2 tab_padded ws ps ->
    tokenize (body_of ps) = ws /\
    process_line st (body_of ps) = process_line st (body_of ws).
Proof.
  intros st ws ps Hne Hws Hpad.
  assert (tokenize (body_of ps) = ws) as Htok.
  { destruct Hpad as [|w p ws ps Hp Hrest]; [congruence|].
    inversion Hws as [|? ? Hw Hws']; subst.
    destruct (lstrip_words w p ws ps Hw Hp) as (p1 & Hl & Hp1).
    destruct (rstrip_words (w :: ws) (p1 :: ps) Hws (Forall2_cons _ _ Hp1 Hrest) Hne)
      as (ps' & Hr & Hpad').
    unfold tokenize, Py.strip. rewrite Hl, Hr.
    rewrite split_words.
    - apply map_strip_padded; assumption.
    - inversion Hpad'; discriminate.
    - clear - Hws Hpad'. revert Hws.
      induction Hpad' as [|w0 p0 ws0 ps0 Hp0 _ IH]; intros Hws; constructor.
      + inversion Hws; subst. eapply tab_padded_no_space; eassumption.
      + apply IH. inversion Hws; assumption. }
  split; [exact Htok|].
  apply process_line_tokens. rewrite Htok, tokenize_body_of by assumption. reflexivity.
Qed.

End Tabs.

(** ** The further properties on the sample data *)

Section FurtherInstances.

#[local] Existing Instance Sample.floats.
#[local] Existing Instance Sample.collaborators.

Lemma sample_floats_print_and_read : floats_print_and_read (PF := Sample.floats).
Proof.
  intros v. split; [apply str_solid|].
  change (Sample.int_literal (Py.str v) = Some v).
  unfold Sample.int_literal. rewrite int_str. reflexivity.
Qed.

Lemma sample_floats_print_words : floats_print_words (PF := Sample.floats).
Proof. intros v. apply str_solid. Qed.

Lemma sample_files_read_back : reads_what_was_written (FS := Demo.files).
Proof.
  intros file_name text disk w disk' Hw.
  simpl in Hw. injection Hw as _ <-. simpl.
  rewrite String.eqb_refl. reflexivity.
Qed.

Lemma padding_is_ignored_sample :
  import_obj_with default_callback Demo.padded_text
  = import_obj_with default_callback Sample.triangle_text.
Proof.
  apply (padding_is_ignored (PF := Sample.floats)).
  change (lines_of Sample.triangle_text)
    with ["v 0 0 0"; "v 1 0 0"; "v 0 1 0"; "f 1 2 3"; ""].
  change (lines_of Demo.padded_text)
    with [("  " ++ "v 0 0 0" ++ Demo.cr)%string; ("" ++ "v 1 0 0" ++ Demo.cr)%string;
          (Sample.tab ++ "v 0 1 0" ++ Demo.cr)%string;
          ("" ++ "f 1 2 3" ++ " " ++ Demo.cr)%string; ("" ++ "" ++ "")%string].
  repeat constructor.
  - exists "  ", Demo.cr. repeat split; reflexivity.
  - exists "", Demo.cr. repeat split; reflexivity.
  - exists Sample.tab, Demo.cr. repeat split; reflexivity.
  - exists "", (" " ++ Demo.cr)%string. repeat split; reflexivity.
  - exists "", "". repeat split; reflexivity.
Defined.

Lemma other_lines_are_inert_sample :
  import_obj_with default_callback Demo.commented_text
  = import_obj_with default_callback Sample.triangle_text.
Proof.
  apply (other_lines_are_inert (PF := Sample.floats)). reflexivity.
Defined.

Lemma index_in_range_resolves_sample :
  exists refs,
    process_line Sample.three_vertices "f 3 1 2"
    = inr (mkState true (vertices Sample.three_vertices)
                   [mkTriangle 1 refs] [] 4 2 1) /\
    Forall2 (fun tok v =>
               exists t, Py.int tok = inr t /\ vertex_id v = t /\
                         nth_error (vertices Sample.three_vertices) (Z.to_nat (t - 1))
                         = Some v)
            ["3"; "1"; "2"] refs.
Proof.
  apply (index_in_range_resolves (PF := Sample.floats)
           ["v 0 0 0"; "v 1 0 0"; "v 0 1 0"] "f 3 1 2" Sample.three_vertices).
  - reflexivity.
  - reflexivity.
  - repeat constructor.
    + exists 3. split; [reflexivity|]. split; discriminate.
    + exists 1. split; [reflexivity|]. split; discriminate.
    + exists 2. split; [reflexivity|]. split; discriminate.
Defined.

Lemma index_not_an_integer_raises_sample :
  import_obj_with default_callback Demo.slashed_text = inl ValueError.
Proof.
  apply (index_not_an_integer_raises (PF := Sample.floats) _ default_callback
           Demo.slashed_text ["v 0 0 0"; "v 1 0 0"; "v 0 1 0"] "f 1/1/1 2/2/2 3/3/3" [""]
           Sample.three_vertices [] "1/1/1" ["2/2/2"; "3/3/3"]).
  - reflexivity.
  - reflexivity.
  - reflexivity.
  - reflexivity.
  - constructor.
  - intros t. discriminate.
Defined.

Lemma imported_faces_are_numbered_sample :
  faces_ok [Sample.triangle_face; mkFace 2 (face_triangles Sample.second_face)].
Proof.
  apply (imported_faces_are_numbered (PF := Sample.floats)
           (Sample.triangle_text ++ Sample.second_text)).
  reflexivity.
Defined.

Lemma one_face_per_run_of_face_lines_sample :
  length [Sample.triangle_face; mkFace 2 (face_triangles Sample.second_face)]
  = face_runs false
      [VertexLine; VertexLine; VertexLine; FaceLine;
       VertexLine; VertexLine; VertexLine; FaceLine; FaceLine; OtherLine].
Proof.
  apply (one_face_per_run_of_face_lines (PF := Sample.floats)
           (Sample.triangle_text ++ Sample.second_text)).
  reflexivity.
Defined.

Lemma no_face_line_no_face_sample :
  import_obj_with default_callback Demo.comments_only = inr [] /\
  forall r, import_obj Sample.vertex_block = inr r -> r = [].
Proof.
  split.
  - apply (proj1 (no_face_line_no_face (PF := Sample.floats)) _ default_callback).
    reflexivity.
  - intros r. apply (proj2 (no_face_line_no_face (PF := Sample.floats))).
    repeat constructor; discriminate.
Defined.

Lemma exported_line_counts_sample :
  count_lines "#" (lines_of Sample.two_quads_text) = 1%nat /\
  count_lines "v" (lines_of Sample.two_quads_text) = 8%nat /\
  count_lines "vn" (lines_of Sample.two_quads_text) = 8%nat /\
  count_lines "vp" (lines_of Sample.two_quads_text) = 8%nat /\
  count_lines "f" (lines_of Sample.two_quads_text) = 4%nat /\
  length (lines_of Sample.two_quads_text)
  = (2 + count_lines "v" (lines_of Sample.two_quads_text)
     + count_lines "vn" (lines_of Sample.two_quads_text)
     + count_lines "vp" (lines_of Sample.two_quads_text)
     + count_lines "f" (lines_of Sample.two_quads_text))%nat.
Proof.
  apply (exported_line_counts (PF := Sample.floats) (CO := Sample.collaborators)
           Sample.two_surfaces Sample.all_kwargs Sample.two_quads_text
           Demo.two_quads_with_normals).
  - exact sample_floats_print_words.
  - repeat constructor.
  - reflexivity.
Defined.

Lemma face_index_points_at_its_vertex_sample :
  nth_error (v_block Sample.two_quads) (Z.to_nat (3 + 1 + 4 - 1))
  = Some ("v 1 1 0" ++ nl)%string.
Proof.
  apply (proj2 (face_index_points_at_its_vertex
                  (PF := Sample.floats) (CO := Sample.collaborators)
                  Sample.two_surfaces Sample.no_kwargs Sample.two_quads_plain_text
                  [(Sample.quad, [])] (Sample.quad, []) []
                  ltac:(repeat constructor) eq_refl)
               3 (mkMeshVertex (PF := Sample.floats) 1 1 0 (1, 1))).
  - lia.
  - reflexivity.
Defined.

Lemma first_failure_is_raised_sample :
  export_obj_str Sample.untessellable Sample.no_kwargs = inl TypeError.
Proof.
  apply (first_failure_is_raised (PF := Sample.floats) (CO := Sample.broken_collaborators)
           Sample.untessellable Sample.no_kwargs [] tt [] []).
  - reflexivity.
  - simpl. lia.
  - reflexivity.
  - constructor.
  - reflexivity.
Defined.

Lemma export_returns_sample :
  export_obj_str Sample.two_surfaces Sample.all_kwargs
  = inr (header ++ join (v_block Demo.two_quads_with_normals)
                ++ join (vn_block Demo.two_quads_with_normals)
                ++ join (vp_block true Demo.two_quads_with_normals)
                ++ join (map render_face (face_triples 0 Demo.two_quads_with_normals)))%string.
Proof.
  apply (export_returns (PF := Sample.floats) (CO := Sample.collaborators)
           Sample.two_surfaces Sample.all_kwargs Demo.two_quads_with_normals).
  - reflexivity.
  - simpl. lia.
  - repeat constructor.
Defined.

Lemma export_then_import_sample :
  import_obj Sample.two_quads_text = inr (reimported Demo.two_quads_with_normals).
Proof.
  apply (export_then_import (PF := Sample.floats) (CO := Sample.collaborators)
           Sample.two_surfaces Sample.all_kwargs Sample.two_quads_text
           Demo.two_quads_with_normals).
  - exact sample_floats_print_and_read.
  - repeat constructor.
  - repeat constructor; simpl; lia.
  - reflexivity.
Defined.

Lemma export_obj_then_import_obj_sample :
  export_obj (FS := Demo.files) Sample.a_curve "out.obj" Sample.no_kwargs []
  = (inl (GeomdlError "Can only export surfaces"), []) /\
  import_obj_file (FS := Demo.files) default_callback "out.obj"
                  [("out.obj", Sample.two_quads_text)]
  = inr (reimported Demo.two_quads_with_normals).
Proof.
  split.
  - apply (proj1 (export_obj_then_import_obj (PF := Sample.floats)
                    (CO := Sample.collaborators) (FS := Demo.files))).
    reflexivity.
  - apply (proj2 (export_obj_then_import_obj (PF := Sample.floats)
                    (CO := Sample.collaborators) (FS := Demo.files))
                 Sample.two_surfaces "out.obj" Sample.all_kwargs [] tt
                 [("out.obj", Sample.two_quads_text)] Demo.two_quads_with_normals).
    + exact sample_files_read_back.
    + exact sample_floats_print_and_read.
    + repeat constructor.
    + repeat constructor; simpl; lia.
    + reflexivity.
Defined.

Lemma tabs_around_tokens_are_ignored_sample :
  tokenize ("v" ++ Sample.tab ++ " " ++ Sample.tab ++ "0" ++ " " ++ "0" ++ " "
                ++ "0" ++ Sample.tab)
  = ["v"; "0"; "0"; "0"].
Proof.
  apply (proj1 (tabs_around_tokens_are_ignored (PF := Sample.floats)
                  Sample.three_vertices ["v"; "0"; "0"; "0"]
                  [("" ++ "v" ++ Sample.tab)%string; (Sample.tab ++ "0" ++ "")%string;
                   ("" ++ "0" ++ "")%string; ("" ++ "0" ++ Sample.tab)%string]
                  ltac:(discriminate) ltac:(repeat constructor)
                  ltac:(repeat constructor;
                        eexists _, _; repeat split; reflexivity))).
Defined.

End FurtherInstances.
